(** * The 1-D XRD pattern container of [plugins/xrd/xrd.py]

    A shallow embedding of the class [xrd1d] and of the module function
    [calculate_xvalues], followed by the properties of the container that
    the specification states.

    - numpy arrays of [float64] are lists of Rocq's primitive binary64
      floats; a zero-dimensional array (what [squeeze] makes of a single
      sample) is kept apart from a one-dimensional one, because [len] and
      slicing tell them apart;
    - Python integers are [Z]; [None] is [option]'s [None];
    - a method is a function from the world (the object and what was
      printed so far) to the new world and either a value or the exception
      raised; assignments done before a [raise] stay done, as in Python;
    - the helpers imported from the sibling modules [xrd_tools], [xrd_bgr]
      and [xrd_fitting] are not part of this file: they are the fields of
      two interfaces, [xrd_tools] and [xrd_fitting]. *)

From Stdlib Require Import ZArith String List Bool Lia Floats
  DecimalString Ascii.
Import ListNotations.

Set Implicit Arguments.

(** ** Exceptions and the method monad *)

Inductive exn : Type :=
| NameError (name : string)
| AttributeError (name : string)
| TypeError
| ValueError
| IndexError
| BeyondModel.   (* not a Python exception: see [split_xy] *)

Inductive result (A : Type) : Type :=
| Ok (a : A)
| Raise (e : exn).

Arguments Ok {A} a.
Arguments Raise {A} e.

(** A computation over a state [S]: the state after it, and its outcome. *)
Definition Py (S A : Type) : Type := S -> S * result A.

Definition ret {S A} (a : A) : Py S A := fun s => (s, Ok a).

Definition raise {S A} (e : exn) : Py S A := fun s => (s, Raise e).

Definition bind {S A B} (m : Py S A) (k : A -> Py S B) : Py S B :=
  fun s =>
    match m s with
    | (s', Ok a) => k a s'
    | (s', Raise e) => (s', Raise e)
    end.

Definition lift {S A} (r : result A) : Py S A := fun s => (s, r).

Declare Scope py_scope.
Delimit Scope py_scope with py.
Notation "x <- m ;; k" := (bind m (fun x => k))
  (at level 61, m at next level, right associativity) : py_scope.
Notation "m ;;; k" := (bind m (fun _ => k))
  (at level 61, right associativity) : py_scope.
Notation "' pat <- m ;; k" := (bind m (fun x => match x with pat => k end))
  (at level 61, pat pattern, m at next level, right associativity) : py_scope.

(** Python's [if c: body] with no [else]. *)
Definition when {S} (c : bool) (body : Py S unit) : Py S unit :=
  if c then body else ret tt.

(** ** Arrays *)

Inductive ndarray : Type :=
| Arr0 (v : float)          (* shape (): zero-dimensional *)
| Arr1 (l : list float).    (* shape (n,) *)

(** The value of an attribute such as [self.q]: [None] or an array. *)
Definition attr : Type := option ndarray.

(** What a Python name can denote where this module looks one up. *)
Inductive pyobj : Type :=
| PNone
| PArr (l : list float)     (* a sequence of floats *)
| PRef (name : string).     (* a module, function, class, string or number *)

Definition fzero : float := 0%float.

(** [np.zeros(n)] *)
Definition zeros (n : nat) : list float := repeat fzero n.

(** [a.squeeze()] on an array whose samples are [l] and whose shape is
    [(n,)], [(1,n)] or [(n,1)]: every axis of length one is dropped, so a
    single sample becomes zero-dimensional. *)
Definition squeeze (l : list float) : ndarray :=
  match l with
  | [v] => Arr0 v
  | _ => Arr1 l
  end.

(** A numpy expression applied to an array works sample by sample. *)
Definition amap (f : float -> float) (a : ndarray) : ndarray :=
  match a with
  | Arr0 v => Arr0 (f v)
  | Arr1 l => Arr1 (map f l)
  end.

(** [len(a)]: [None] and zero-dimensional arrays have no length. *)
Definition py_len (a : attr) : result nat :=
  match a with
  | Some (Arr1 l) => Ok (length l)
  | Some (Arr0 _) => Raise TypeError
  | None => Raise TypeError
  end.

(** [np.shape(a)] followed by [np.zeros]: the shape of [None] and of a
    zero-dimensional array is [()]. *)
Definition zeros_shape (a : attr) : ndarray :=
  match a with
  | Some (Arr1 l) => Arr1 (zeros (length l))
  | Some (Arr0 _) => Arr0 fzero
  | None => Arr0 fzero
  end.

(** *** Python slices and indices *)

(** One bound of [l[i:j]] on a sequence of length [n]: a negative bound
    counts from the end, and both are clipped to [0..n]. *)
Definition clip_bound (n k : Z) : Z :=
  if (k <? 0)%Z then Z.max (k + n) 0 else Z.min k n.

Definition slice_start (n : nat) (i : option Z) : nat :=
  match i with
  | None => 0
  | Some k => Z.to_nat (clip_bound (Z.of_nat n) k)
  end.

Definition slice_stop (n : nat) (j : option Z) : nat :=
  match j with
  | None => n
  | Some k => Z.to_nat (clip_bound (Z.of_nat n) k)
  end.

Definition slice {A} (l : list A) (i j : option Z) : list A :=
  let a := slice_start (length l) i in
  let b := slice_stop (length l) j in
  firstn (b - a) (skipn a l).

(** [a[i:j]] on an attribute. *)
Definition getslice (a : attr) (i j : option Z) : result (list float) :=
  match a with
  | Some (Arr1 l) => Ok (slice l i j)
  | Some (Arr0 _) => Raise IndexError
  | None => Raise TypeError
  end.

(** [l[k]] for an integer [k]: positions [-n..n-1] exist. *)
Definition py_index {A} (l : list A) (k : Z) : result A :=
  let n := Z.of_nat (length l) in
  let k' := if (k <? 0)%Z then (k + n)%Z else k in
  if ((0 <=? k') && (k' <? n))%Z%bool then
    match nth_error l (Z.to_nat k') with
    | Some v => Ok v
    | None => Raise IndexError
    end
  else Raise IndexError.

(** *** Reductions *)

(** numpy's [minimum] and [maximum] on two floats: a NaN on the left stays. *)
Definition fminimum (a b : float) : float :=
  if (PrimFloat.leb a b || PrimFloat.is_nan a)%bool then a else b.

Definition fmaximum (a b : float) : float :=
  if (PrimFloat.leb b a || PrimFloat.is_nan a)%bool then a else b.

(** [np.min(x)], [np.max(x)]: a reduction from the first sample; an empty
    array has no minimum. *)
Definition np_min (l : list float) : result float :=
  match l with
  | [] => Raise ValueError
  | v :: l' => Ok (fold_left fminimum l' v)
  end.

Definition np_max (l : list float) : result float :=
  match l with
  | [] => Raise ValueError
  | v :: l' => Ok (fold_left fmaximum l' v)
  end.

(** [a.argmin()]: [mp] is the least sample so far and [mi] its position,
    [i] the position of the head of [l]. The scan keeps the first of equal
    samples and stops at the first NaN. *)
Fixpoint argmin_from (mp : float) (mi i : nat) (l : list float) : nat :=
  if PrimFloat.is_nan mp then mi
  else
    match l with
    | [] => mi
    | v :: l' =>
        if negb (PrimFloat.leb mp v)
        then argmin_from v i (S i) l'
        else argmin_from mp mi (S i) l'
    end.

Definition argmin (l : list float) : result nat :=
  match l with
  | [] => Raise ValueError
  | v :: l' => Ok (argmin_from v 0 1 l')
  end.

(** [np.abs(x - v)] *)
Definition abs_diff (l : list float) (v : float) : list float :=
  map (fun s => PrimFloat.abs (PrimFloat.sub s v)) l.

(** [a - b] with numpy's broadcasting, for a one-dimensional [a]. *)
Definition np_sub (a : list float) (b : attr) : result (list float) :=
  match b with
  | None => Raise TypeError
  | Some (Arr0 v) => Ok (map (fun s => PrimFloat.sub s v) a)
  | Some (Arr1 bl) =>
      if Nat.eqb (length a) (length bl) then
        Ok (map (fun p => PrimFloat.sub (fst p) (snd p)) (combine a bl))
      else
        match a, bl with
        | _, [v] => Ok (map (fun s => PrimFloat.sub s v) a)
        | [s], _ => Ok (map (fun v => PrimFloat.sub s v) bl)
        | _, _ => Raise ValueError
        end
  end.

(** [str.startswith] *)
Definition startswith (s pre : string) : bool := String.prefix pre s.

(** ** The helpers of the sibling modules *)

(** [larch_plugins.xrd.xrd_tools]: closed-form conversions between the three
    axes, written with numpy expressions and so applied sample by sample.
    The second argument of the two-argument ones is the wavelength. *)
Class xrd_tools : Type := {
  d_from_q : float -> float;
  d_from_twth : float -> float -> float;
  twth_from_d : float -> float -> float;
  twth_from_q : float -> float -> float;
  q_from_d : float -> float;
  q_from_twth : float -> float -> float
}.

(** [larch_plugins.xrd.xrd_bgr] and [xrd_fitting]: the background estimator
    [xrd_background(x, y)], the peak finder [peakfinder(y, **kwargs)] and
    the peak filter [peakfilter(threshold, indices, y)]. [kwargs] is the
    type of the keyword options handed through to the finder. *)
Class xrd_fitting (kwargs : Type) : Type := {
  xrd_background : list float -> list float -> list float;
  peakfinder : list float -> kwargs -> list Z;
  peakfilter : float -> list Z -> list float -> list Z
}.

(** ** The object *)

(** The attributes that the methods below read or write. The calibration
    attributes ([distance], [poni], ...), [label], [energy], [uvw], [D],
    [matches], [xrd2d] and [cake] are only ever assigned. *)
Record xrd1d : Type := mk_xrd1d {
  self_wavelength : option float;
  self_q : attr;
  self_twth : attr;
  self_d : attr;
  self_I : attr;
  self_bkgd : attr;
  self_pki : list Z;
  self_imin : option Z;
  self_imax : option Z
}.

Record world : Type := mk_world {
  self : xrd1d;
  stdout : list string
}.

Definition set_wavelength (w : option float) (o : xrd1d) : xrd1d :=
  mk_xrd1d w (self_q o) (self_twth o) (self_d o) (self_I o) (self_bkgd o)
           (self_pki o) (self_imin o) (self_imax o).

Definition set_axes (q t d : attr) (o : xrd1d) : xrd1d :=
  mk_xrd1d (self_wavelength o) q t d (self_I o) (self_bkgd o)
           (self_pki o) (self_imin o) (self_imax o).

Definition set_I (y : attr) (o : xrd1d) : xrd1d :=
  mk_xrd1d (self_wavelength o) (self_q o) (self_twth o) (self_d o) y
           (self_bkgd o) (self_pki o) (self_imin o) (self_imax o).

Definition set_bkgd (b : attr) (o : xrd1d) : xrd1d :=
  mk_xrd1d (self_wavelength o) (self_q o) (self_twth o) (self_d o) (self_I o)
           b (self_pki o) (self_imin o) (self_imax o).

Definition set_pki (p : list Z) (o : xrd1d) : xrd1d :=
  mk_xrd1d (self_wavelength o) (self_q o) (self_twth o) (self_d o) (self_I o)
           (self_bkgd o) p (self_imin o) (self_imax o).

Definition set_imin (i : option Z) (o : xrd1d) : xrd1d :=
  mk_xrd1d (self_wavelength o) (self_q o) (self_twth o) (self_d o) (self_I o)
           (self_bkgd o) (self_pki o) i (self_imax o).

Definition set_imax (j : option Z) (o : xrd1d) : xrd1d :=
  mk_xrd1d (self_wavelength o) (self_q o) (self_twth o) (self_d o) (self_I o)
           (self_bkgd o) (self_pki o) (self_imin o) j.

(** [self.imin, self.imax = i, j] *)
Definition set_range (i j : option Z) (o : xrd1d) : xrd1d :=
  set_imax j (set_imin i o).

(** Reading and writing the object, and [print]. *)
Definition get {A} (f : xrd1d -> A) : Py world A :=
  fun w => (w, Ok (f (self w))).

Definition assign (f : xrd1d -> xrd1d) : Py world unit :=
  fun w => (mk_world (f (self w)) (stdout w), Ok tt).

Definition print (line : string) : Py (list string) unit :=
  fun out => (out ++ [line], Ok tt).

(** A module-level function called from a method: it sees the output
    stream and not the object. *)
Definition call {A} (m : Py (list string) A) : Py world A :=
  fun w => let (out, r) := m (stdout w) in (mk_world (self w) out, r).

Local Open Scope py_scope.

(** ** [calculate_xvalues(x, xtype, wavelength)] *)

Section Conversion.

Context {tools : xrd_tools}.

(** [np.zeros(len(a))] *)
Definition zeros_len {S} (a : ndarray) : Py S ndarray :=
  n <- lift (py_len (Some a)) ;; ret (Arr1 (zeros n)).

Definition calculate_xvalues (x : list float) (xtype : string)
    (wavelength : option float) : Py (list string) (attr * attr * attr) :=
  let x := squeeze x in
  if startswith xtype "q" then
    let q := x in
    let d := amap d_from_q q in
    twth <- match wavelength with
            | Some w => ret (amap (fun v => twth_from_q v w) q)
            | None => zeros_len q
            end ;;
    ret (Some q, Some twth, Some d)
  else if startswith xtype "2th" then
    let twth := x in
    '(q, d) <- match wavelength with
               | Some w =>
                   ret (amap (fun v => q_from_twth v w) twth,
                        amap (fun v => d_from_twth v w) twth)
               | None =>
                   q <- zeros_len twth ;;
                   d <- zeros_len twth ;;
                   ret (q, d)
               end ;;
    ret (Some q, Some twth, Some d)
  else if startswith xtype "d" then
    let d := x in
    let q := amap q_from_d d in
    twth <- match wavelength with
            | Some w => ret (amap (fun v => twth_from_d v w) d)
            | None => zeros_len d
            end ;;
    ret (Some q, Some twth, Some d)
  else
    print ("The provided x-axis label (" ++ xtype
           ++ ") not correct. Check data.")%string ;;;
    ret (None, None, None).

End Conversion.

(** ** The class [xrd1d] *)

(** *** [np.array(xy)] and [np.split] *)

(** The rows of [xy] when every item is a sequence of floats. *)
Fixpoint rows_of (items : list pyobj) : option (list (list float)) :=
  match items with
  | [] => Some []
  | PArr l :: rest => option_map (cons l) (rows_of rest)
  | _ :: _ => None
  end.

Definition rectangular (c : nat) (rows : list (list float)) : bool :=
  forallb (fun r => Nat.eqb (length r) c) rows.

(** [xy = np.array(xy)] together with the reading of [xy.shape[0]] and
    [xy.shape[1]]: the rows and their two counts. Rows of unequal length are
    refused by numpy (ValueError; before numpy 1.24 they gave a
    one-dimensional array of objects, and reading [xy.shape[1]] raised
    IndexError); an empty list or a list of scalars is one-dimensional and
    has no [shape[1]]. *)
Definition np_array (items : list pyobj)
  : result (list (list float) * nat * nat) :=
  match rows_of items with
  | Some (r0 :: rows) =>
      if rectangular (length r0) rows
      then Ok (r0 :: rows, S (length rows), length r0)
      else Raise ValueError
  | Some [] => Raise IndexError
  | None => Raise IndexError
  end.

Definition column (k : nat) (rows : list (list float)) : list float :=
  map (fun r => nth k r fzero) rows.

(** The two halves [x, y] that [np.split(xy, 2, axis)] returns, as the
    samples that [squeeze] will keep: a half of shape [(1,n)] or [(n,1)] is
    a vector. A half with two or more rows and two or more columns (or
    several empty rows) stays a matrix after [squeeze]; the class documents
    [q], [twth], [d] and [I] as one-dimensional arrays, and such input is
    outside this model. *)
Inductive halves : Type :=
| Vectors (x y : list float)
| Matrices.

Definition split_xy (rows : list (list float)) (r c : nat) : result halves :=
  if c <? r then
    (* xy.shape[0] > xy.shape[1]:  x,y = np.split(xy,2,axis=1) *)
    if Nat.odd c then Raise ValueError
    else
      match c with
      | 0 => match rows with
             | [_] => Ok (Vectors [] [])
             | _ => Ok Matrices
             end
      | 2 => Ok (Vectors (column 0 rows) (column 1 rows))
      | _ => Ok Matrices
      end
  else
    (* x,y = np.split(xy,2,axis=0) *)
    if Nat.odd r then Raise ValueError
    else
      match rows with
      | [x; y] => Ok (Vectors x y)
      | _ => Ok Matrices
      end.

(** *** Peak table helpers *)

(** [np.array(self.all_data(...))]: five vectors of one length make a
    table of five rows. *)
Fixpoint vectors_of (cols : list attr) : option (list (list float)) :=
  match cols with
  | [] => Some []
  | Some (Arr1 l) :: rest => option_map (cons l) (vectors_of rest)
  | _ :: _ => None
  end.

Definition np_table (cols : list attr) : result (list (list float)) :=
  match vectors_of cols with
  | Some (r0 :: rows) =>
      if rectangular (length r0) rows then Ok (r0 :: rows)
      else Raise ValueError
  | _ => Raise ValueError
  end.

(** [tbl[:, k]] *)
Fixpoint table_column (tbl : list (list float)) (k : Z)
  : result (list float) :=
  match tbl with
  | [] => Ok []
  | row :: rest =>
      match py_index row k with
      | Ok v =>
          match table_column rest k with
          | Ok col => Ok (v :: col)
          | Raise e => Raise e
          end
      | Raise e => Raise e
      end
  end.

Fixpoint replace_nth {A} (i : nat) (v : A) (l : list A) : list A :=
  match l, i with
  | [], _ => []
  | _ :: t, O => v :: t
  | h :: t, S i' => h :: replace_nth i' v t
  end.

(** [pk_data[:, i] = col] *)
Definition set_column (i : nat) (col : list float)
    (pk_data : list (list float)) : list (list float) :=
  map (fun p => replace_nth i (snd p) (fst p)) (combine pk_data col).

(** [for i,pki in enumerate(self.pki): pk_data[:,i] = all_data[:,pki]],
    from position [i] on. *)
Fixpoint fill_columns (tbl : list (list float)) (i : nat) (pki : list Z)
    (pk_data : list (list float)) : result (list (list float)) :=
  match pki with
  | [] => Ok pk_data
  | k :: rest =>
      match table_column tbl k with
      | Ok col => fill_columns tbl (S i) rest (set_column i col pk_data)
      | Raise e => Raise e
      end
  end.

(** *** The methods *)

Section Methods.

Context {tools : xrd_tools} {kwargs : Type} {fitting : xrd_fitting kwargs}.

Definition set_xy_data (xy : option (list pyobj)) (xtype : string)
  : Py world unit :=
  match xy with
  | None => ret tt
  | Some items =>
      '(rows, r, c) <- lift (np_array items) ;;
      h <- lift (split_xy rows r c) ;;
      match h with
      | Matrices => raise BeyondModel
      | Vectors x y =>
          w <- get self_wavelength ;;
          '(q, t, d) <- call (calculate_xvalues x xtype w) ;;
          assign (set_axes q t d) ;;;
          assign (set_I (Some (squeeze y))) ;;;
          q' <- get self_q ;;
          n <- lift (py_len q') ;;
          assign (set_range (Some 0%Z) (Some (Z.of_nat n))) ;;;
          y' <- get self_I ;;
          assign (set_bkgd (Some (zeros_shape y')))
      end
  end.

Definition xrd_from_2d (xy : option (list pyobj)) (xtype : string)
  : Py world unit :=
  set_xy_data xy xtype.

(** [if reset: self.imin,self.imax = 0,len(self.I)] *)
Definition reset_range (reset : bool) : Py world unit :=
  when reset
    (y <- get self_I ;;
     n <- lift (py_len y) ;;
     assign (set_range (Some 0%Z) (Some (Z.of_nat n)))).

(** The list that both [plot] and [all_data] return (lines 196-206 and
    240-250 are the same text), its items evaluated from left to right. *)
Definition sliced (bkgd : bool) : Py world (list attr) :=
  o <- get (fun o => o) ;;
  q <- lift (getslice (self_q o) (self_imin o) (self_imax o)) ;;
  t <- lift (getslice (self_twth o) (self_imin o) (self_imax o)) ;;
  d <- lift (getslice (self_d o) (self_imin o) (self_imax o)) ;;
  y <- lift (getslice (self_I o) (self_imin o) (self_imax o)) ;;
  y' <- (if bkgd then lift (np_sub y (self_bkgd o)) else ret y) ;;
  ret [Some (Arr1 q); Some (Arr1 t); Some (Arr1 d); Some (Arr1 y');
       self_bkgd o].

Definition plot (reset bkgd : bool) : Py world (list attr) :=
  reset_range reset ;;;
  sliced bkgd.

Definition reset_bkgd : Py world unit :=
  y <- get self_I ;;
  assign (set_bkgd (Some (zeros_shape y))).

Definition eqz (xi : option Z) (k : Z) : bool :=
  match xi with
  | Some v => Z.eqb v k
  | None => false
  end.

(** In the last branch the message is built before it is printed, and its
    format has one [%s] for the two values [(xtype,xi)]: the [%] operator
    raises TypeError, and neither [print] nor [return] is reached. *)
Definition slct_xaxis (xtype : string) (xi : option Z) : Py world attr :=
  if (startswith xtype "q" || eqz xi 0)%bool then get self_q
  else if (startswith xtype "2th" || eqz xi 1)%bool then get self_twth
  else if (startswith xtype "d" || eqz xi 2)%bool then get self_d
  else raise TypeError.

Definition set_trim (xmin xmax : float) (xtype : string) (xi : option Z)
  : Py world unit :=
  x <- slct_xaxis xtype xi ;;
  n <- lift (py_len x) ;;
  assign (set_range (Some 0%Z) (Some (Z.of_nat n - 1)%Z)) ;;;
  match x with
  | Some (Arr1 l) =>
      lo <- lift (np_min l) ;;
      when (PrimFloat.ltb lo xmin)
        (i <- lift (argmin (abs_diff l xmin)) ;;
         assign (set_imin (Some (Z.of_nat i)))) ;;;
      hi <- lift (np_max l) ;;
      when (PrimFloat.ltb xmax hi)
        (i <- lift (argmin (abs_diff l xmax)) ;;
         assign (set_imax (Some (Z.of_nat i))))
  | _ => raise TypeError     (* excluded by [len(x)] above *)
  end.

Definition all_data (reset bkgd : bool) : Py world (list attr) :=
  reset_range reset ;;;
  o <- get (fun o => o) ;;
  y <- lift (getslice (self_I o) (self_imin o) (self_imax o)) ;;
  nb <- lift (py_len (self_bkgd o)) ;;
  when (negb (Nat.eqb (length y) nb))
    (assign (set_bkgd (Some (Arr1 (zeros (length y)))))) ;;;
  sliced bkgd.

Definition fit_background : Py world unit :=
  o <- get (fun o => o) ;;
  x <- lift (getslice (self_q o) (self_imin o) (self_imax o)) ;;
  y <- lift (getslice (self_I o) (self_imin o) (self_imax o)) ;;
  let b := xrd_background x y in
  assign (set_bkgd (Some (Arr1 b))) ;;;
  when (length b <? length y)
    (v <- lift (py_index b (-1)) ;;
     assign (set_bkgd (Some (Arr1 (b ++ [v]))))).

Definition find_peaks (bkgd : bool) (threshold : option float) (kw : kwargs)
  : Py world (list (list float)) :=
  cols <- all_data false bkgd ;;
  tbl <- lift (np_table cols) ;;
  y <- lift (py_index tbl 3) ;;
  assign (set_pki (peakfinder y kw)) ;;;
  match threshold with
  | Some th =>
      p <- get self_pki ;;
      assign (set_pki (peakfilter th p y))
  | None => ret tt
  end ;;;
  p <- get self_pki ;;
  lift (fill_columns tbl 0 p (repeat (zeros (length p)) 5)).

(** *** The constructor, called without a file *)

(** The names that exist when the body of [__init__] runs: its parameters,
    and what the module has bound at top level. Python looks a name up at
    run time, in this order and then among the builtins (none of the names
    read below is one), and raises NameError when it finds nothing. *)
Definition opt_arr (a : option (list float)) : pyobj :=
  match a with
  | Some l => PArr l
  | None => PNone
  end.

Definition opt_ref {A} (a : option A) (name : string) : pyobj :=
  match a with
  | Some _ => PRef name
  | None => PNone
  end.

Definition init_locals (label : option string) (x : option (list float))
    (xtype : option string) (I0 : option (list float))
    (wavelength energy : option float) : list (string * pyobj) :=
  [("self", PRef "self"); ("file", PNone); ("label", opt_ref label "label");
   ("x", opt_arr x); ("xtype", opt_ref xtype "xtype"); ("I", opt_arr I0);
   ("wavelength", opt_ref wavelength "wavelength");
   ("energy", opt_ref energy "energy")]%string.

Definition module_globals : list (string * pyobj) :=
  map (fun n => (n, PRef n))
    ["os"; "np"; "d_from_q"; "d_from_twth"; "twth_from_d"; "twth_from_q";
     "q_from_d"; "q_from_twth"; "E_from_lambda"; "integrate_xrd";
     "xrd_background"; "peakfinder"; "peaklocater"; "peakfilter";
     "peakfitter"; "tifffile"; "HAS_larch"; "Group"; "grpobjt"; "xrd1d";
     "XRD"; "calculate_xvalues"; "create_xrd"; "create_xrd1d";
     "registerLarchPlugin"; "registerLarchGroups"]%string.

Definition load_name {S} (env : list (string * pyobj)) (name : string)
  : Py S pyobj :=
  match find (fun p => String.eqb (fst p) name) env with
  | Some p => ret (snd p)
  | None => raise (NameError name)
  end.

Definition is_not_none (v : pyobj) : bool :=
  match v with
  | PNone => false
  | _ => true
  end.

(** The attributes before [__init__] has assigned any. *)
Definition blank : xrd1d :=
  mk_xrd1d None None None None None None [] None None.

(** [__init__(self, file=None, label, x, xtype, I, wavelength, energy)].
    When [I] is given and none of the three tests holds, [self.I] was never
    assigned and line 108 raises AttributeError. *)
Definition xrd1d_init (label : option string) (x : option (list float))
    (xtype : option string) (I0 : option (list float))
    (wavelength energy : option float) : Py world unit :=
  let env := init_locals label x xtype I0 wavelength energy
             ++ module_globals in
  assign (set_wavelength wavelength) ;;;
  match I0 with
  | Some _ =>
      v <- load_name env "xytq" ;;
      (if is_not_none v then
         a <- load_name env "q" ;;
         b <- load_name env "I" ;;
         xrd_from_2d (Some [a; b]) "q"
       else
         v <- load_name env "twth" ;;
         if is_not_none v then
           a <- load_name env "twth" ;;
           b <- load_name env "I" ;;
           xrd_from_2d (Some [a; b]) "2th"
         else
           v <- load_name env "d" ;;
           if is_not_none v then
             a <- load_name env "d" ;;
             b <- load_name env "I" ;;
             xrd_from_2d (Some [a; b]) "d"
           else raise (AttributeError "I")) ;;;
      y <- get self_I ;;
      assign (set_bkgd (Some (zeros_shape y)))
  | None =>
      assign (set_axes None None None) ;;;
      assign (set_I None) ;;;
      assign (set_bkgd None)
  end ;;;
  assign (set_pki []) ;;;
  assign (set_range None None).

(** The expression [xrd1d(label=..., x=..., ...)]: the new object when
    [__init__] returns, the exception otherwise. *)
Definition new_xrd1d (label : option string) (x : option (list float))
    (xtype : option string) (I0 : option (list float))
    (wavelength energy : option float) : result xrd1d :=
  match xrd1d_init label x xtype I0 wavelength energy (mk_world blank []) with
  | (w, Ok _) => Ok (self w)
  | (_, Raise e) => Raise e
  end.

End Methods.

(** ** The vocabulary of the specification *)

(** The three axis tags of the specification and the strings that the code
    tests for. *)
Inductive axis : Type := Q | TWO_THETA | D.

Definition tag (a : axis) : string :=
  match a with
  | Q => "q"
  | TWO_THETA => "2th"
  | D => "d"
  end.

(** A string that passes one of the three [startswith] tests. *)
Definition recognised (xtype : string) : bool :=
  (startswith xtype "q" || startswith xtype "2th" || startswith xtype "d")%bool.

(** The mutating operations of the specification: [setTrim], [activeSlice]
    and [resetRange] (the [reset] flag of [plot] and [all_data]),
    [resetBackground], [fitBackground] and [findPeaks]. *)
Inductive method (kwargs : Type) : Type :=
| SetTrim (xmin xmax : float) (xtype : string) (xi : option Z)
| Plot (reset bkgd : bool)
| AllData (reset bkgd : bool)
| ResetBkgd
| FitBackground
| FindPeaks (bkgd : bool) (threshold : option float) (kw : kwargs).

Arguments SetTrim {kwargs}.
Arguments Plot {kwargs}.
Arguments AllData {kwargs}.
Arguments ResetBkgd {kwargs}.
Arguments FitBackground {kwargs}.
Arguments FindPeaks {kwargs}.

(** One call, its value dropped. *)
Definition run {kwargs : Type} {fitting : xrd_fitting kwargs}
    (c : method kwargs) : Py world unit :=
  match c with
  | SetTrim xmin xmax xtype xi => set_trim xmin xmax xtype xi
  | Plot reset bkgd => plot reset bkgd ;;; ret tt
  | AllData reset bkgd => all_data reset bkgd ;;; ret tt
  | ResetBkgd => reset_bkgd
  | FitBackground => fit_background
  | FindPeaks bkgd threshold kw => find_peaks bkgd threshold kw ;;; ret tt
  end.

(** An object that holds a pattern of [n] samples: four vectors of length
    [n], and a background vector of any length. *)
Inductive pattern (n : nat) : xrd1d -> Prop :=
| pattern_intro w q t d y b p i j :
    length q = n -> length t = n -> length d = n -> length y = n ->
    pattern n (mk_xrd1d w (Some (Arr1 q)) (Some (Arr1 t)) (Some (Arr1 d))
                        (Some (Arr1 y)) (Some (Arr1 b)) p i j).




(** The peaks that [find_peaks] keeps for the intensity column [y]. *)
Definition kept_peaks {kwargs : Type} {fitting : xrd_fitting kwargs}
    (y : list float) (threshold : option float) (kw : kwargs) : list Z :=
  match threshold with
  | Some th => peakfilter th (peakfinder y kw) y
  | None => peakfinder y kw
  end.

(** [k] is a position of a row of [m] samples. *)
Definition valid_index (m : nat) (k : Z) : Prop :=
  (- Z.of_nat m <= k < Z.of_nat m)%Z.

(** The sample of [row] at the Python index [k]. *)
Definition pick (row : list float) (k : Z) : float :=
  nth (Z.to_nat (if (k <? 0)%Z then k + Z.of_nat (length row) else k)%Z)
      row fzero.


(** The background that [all_data] leaves for the active intensities [ys]:
    the stored one when the lengths agree, zeros otherwise. *)
Definition repaired (ys b : list float) : list float :=
  if Nat.eqb (length ys) (length b) then b else zeros (length ys).

(** The intensity column: background-subtracted when asked. *)
Definition intensities (bkgd : bool) (ys b : list float) : list float :=
  if bkgd
  then map (fun p => PrimFloat.sub (fst p) (snd p)) (combine ys b)
  else ys.

(** *** Concrete objects for the examples *)

Definition five : list float := [1; 2; 3; 4; 5]%float.
Definition counts : list float := [0; 5; 10; 5; 0]%float.

(** The pattern of native axis ['2th'] over [five] and [counts] with no
    wavelength, as [set_xy_data] leaves it (lemma [sample_constructed]):
    without a wavelength no helper of [xrd_tools] is called. *)
Definition sample : xrd1d :=
  mk_xrd1d None (Some (Arr1 (zeros 5))) (Some (Arr1 five))
           (Some (Arr1 (zeros 5))) (Some (Arr1 counts))
           (Some (Arr1 (zeros 5))) [] (Some 0%Z) (Some 5%Z).

(** [sample] after [set_trim(2, 4, '2th')]. *)
Definition trimmed : xrd1d := set_range (Some 1%Z) (Some 3%Z) sample.

(** Modelled from the spec: the helpers of [xrd_tools], which are not among
    this repository's files. The specification gives [d = 2*pi/q] (and so
    [q = 2*pi/d]); it gives no formula for the angular helpers, which need
    [arcsin] and [sin], and they are constant here. The instance serves the
    closed examples only, and each of them runs a branch that calls no
    helper: the unknown-tag branch of the conversion, or a method of the
    class. Every general statement below holds for all instances. *)
Definition two_pi : float := 0x1.921fb54442d18p+2%float.

Definition plain_tools : xrd_tools :=
  {| d_from_q := fun q => PrimFloat.div two_pi q;
     d_from_twth := fun _ _ => fzero;
     twth_from_d := fun _ _ => fzero;
     twth_from_q := fun _ _ => fzero;
     q_from_d := fun d => PrimFloat.div two_pi d;
     q_from_twth := fun _ _ => fzero |}.

(** An estimator that returns a curve two samples shorter than its input,
    a finder that reports the middle sample, and a filter that keeps all. *)
Definition short_fitting : xrd_fitting unit :=
  {| xrd_background := fun x y => zeros (length y - 2);
     peakfinder := fun y _ => [2%Z];
     peakfilter := fun _ p _ => p |}.

(** An estimator whose curve is one sample short. *)
Definition near_fitting : xrd_fitting unit :=
  {| xrd_background := fun x y => repeat 1%float (length y - 1);
     peakfinder := fun y _ => [2%Z];
     peakfilter := fun _ p _ => p |}.

(** ** The order of the samples *)

(** The place of a float that is not a NaN in the order that [<=] tests:
    its class (the infinities, the two signs, zero), then its exponent and
    its mantissa, negated for a negative float. Both zeros have one place. *)
Definition sf_key (f : spec_float) : Z * Z * Z :=
  match f with
  | S754_nan => (0, 0, 0)%Z
  | S754_zero _ => (0, 0, 0)%Z
  | S754_infinity true => (-2, 0, 0)%Z
  | S754_infinity false => (2, 0, 0)%Z
  | S754_finite false m e => (1, e, Z.pos m)%Z
  | S754_finite true m e => (-1, - e, - Z.pos m)%Z
  end.

Definition key_le (a b : Z * Z * Z) : Prop :=
  let '(c1, e1, m1) := a in
  let '(c2, e2, m2) := b in
  (c1 < c2 \/ (c1 = c2 /\ (e1 < e2 \/ (e1 = e2 /\ m1 <= m2))))%Z.

(** No sample is a NaN. *)
Definition no_nan (l : list float) : Prop :=
  Forall (fun v => PrimFloat.is_nan v = false) l.

(** Position [i] holds a least sample of [l], and no earlier position
    does. *)
Definition least_at (l : list float) (i : nat) : Prop :=
  i < length l /\
  (forall k, k < length l ->
             PrimFloat.leb (nth i l fzero) (nth k l fzero) = true) /\
  (forall k, k < i ->
             PrimFloat.leb (nth k l fzero) (nth i l fzero) = false).

(** Position [i] holds a sample of [l] nearest to [v], the first such:
    the distances are the ones [set_trim] computes, [np.abs(x - v)]. *)
Definition nearest_at (l : list float) (v : float) (i : nat) : Prop :=
  least_at (abs_diff l v) i.

(** ** The class [XRD] and [create_xrd] *)

(** The attributes that [__repr__] and [save_1D] read, and the two that
    [create_xrd] leaves to their defaults. *)
Record XRD : Type := mk_XRD {
  xrd_name : string;
  xrd_xpix : Z;
  xrd_ypix : Z;
  xrd_data2D : option (list (list float));
  xrd_data1D : option (list (list float));
  xrd_nwedge : Z;
  xrd_steps : Z;
  xrd_filename : option string;
  xrd_title : option string
}.

(** A keyword argument: [None] when the caller leaves it out. *)
Definition arg {A} (a : option A) (default : A) : A :=
  match a with
  | Some v => v
  | None => default
  end.

(** [XRD.__init__(self, data2D=None, xpixels=2048, ypixels=2048,
    data1D=None, nwedge=1, steps=5001, name='xrd', ...)] *)
Definition XRD_init (data2D : option (list (list float)))
    (xpixels ypixels : option Z) (data1D : option (list (list float)))
    (nwedge steps : option Z) (name : option string) : XRD :=
  mk_XRD (arg name "xrd"%string) (arg xpixels 2048%Z) (arg ypixels 2048%Z)
         data2D data1D (arg nwedge 1%Z) (arg steps 5001%Z) None None.

(** [create_xrd(data2D=None, xpixels=2048, ypixels=2048, data1D=None,
    nwedge=2, steps=5001, name='xrd', ...)]: it calls
    [XRD(data2D=data2D, data1D=data1D, xpixels=xpixels, ypixels=ypixels,
    name=name, **kws)]. *)
Definition create_xrd (data2D : option (list (list float)))
    (xpixels ypixels : option Z) (data1D : option (list (list float)))
    (nwedge steps : option Z) (name : option string) : XRD :=
  XRD_init data2D (Some (arg xpixels 2048%Z)) (Some (arg ypixels 2048%Z))
           data1D None None (Some (arg name "xrd"%string)).

(** ['%d' % n] for an integer. *)
Definition fmt_d (n : Z) : string := NilZero.string_of_int (Z.to_int n).

(** [XRD.__repr__] *)
Definition XRD_repr (x : XRD) : string :=
  match xrd_data2D x, xrd_data1D x with
  | Some _, _ =>
      "<2DXRD " ++ xrd_name x ++ ": pixels = " ++ fmt_d (xrd_xpix x)
      ++ ", " ++ fmt_d (xrd_ypix x) ++ ">"
  | None, Some _ =>
      "<1DXRD " ++ xrd_name x ++ ": channels = " ++ fmt_d (xrd_steps x) ++ ">"
  | None, None => "<no 1D or 2D XRD pattern given>"
  end%string.

(** *** [save_1D] *)

Definition is_slash (c : ascii) : bool := Ascii.eqb c "/"%char.

(** [p[:i], p[i:]] for [i = p.rfind('/') + 1]. *)
Fixpoint cut_at_last_slash (p : string) : string * string :=
  match p with
  | EmptyString => (EmptyString, EmptyString)
  | String c rest =>
      match cut_at_last_slash rest with
      | (EmptyString, _) =>
          if is_slash c then (String c EmptyString, rest)
          else (EmptyString, String c rest)
      | (head, tail) => (String c head, tail)
      end
  end.

(** [head.rstrip('/')] *)
Fixpoint rstrip_slash (s : string) : string :=
  match s with
  | EmptyString => EmptyString
  | String c rest =>
      match rstrip_slash rest with
      | EmptyString => if is_slash c then EmptyString else String c EmptyString
      | r => String c r
      end
  end.

(** [os.path.split] of [posixpath]: the head loses its trailing slashes
    unless it is made of slashes only. *)
Definition path_split (p : string) : string * string :=
  let (head, tail) := cut_at_last_slash p in
  (match rstrip_slash head with
   | EmptyString => head
   | stripped => stripped
   end, tail).

(** ['%03d' % n] for [n >= 0]. *)
Definition fmt_03d (n : nat) : string :=
  let s := NilZero.string_of_uint (Nat.to_uint n) in
  match String.length s with
  | 1 => "00" ++ s
  | 2 => "0" ++ s
  | _ => s
  end%string.

(** ['%s' % self.title] *)
Definition fmt_s (s : option string) : string := arg s "None"%string.

(** ['%s/%s-%s-%03d.xy' % (pref,fname,self.title,counter)] *)
Definition xy_name (filename : string) (title : option string)
    (counter : nat) : string :=
  let (pref, fname) := path_split filename in
  (pref ++ "/" ++ fname ++ "-" ++ fmt_s title ++ "-" ++ fmt_03d counter
   ++ ".xy")%string.

(** [while os.path.exists(name): counter += 1], at most [fuel] tests:
    [None] when the loop has not ended by then. [present] is what
    [os.path.exists] answers. *)
Fixpoint first_free (present : string -> bool) (name : nat -> string)
    (fuel counter : nat) : option nat :=
  match fuel with
  | O => None
  | S fuel' =>
      if present (name counter)
      then first_free present name fuel' (S counter)
      else Some counter
  end.

(** [XRD.save_1D]: [os.path.split(None)] raises TypeError. *)
Definition save_1D (present : string -> bool) (x : XRD) (fuel : nat)
  : option (result string) :=
  match xrd_filename x with
  | None => Some (Raise TypeError)
  | Some f =>
      match first_free present (xy_name f (xrd_title x)) fuel 1 with
      | Some counter => Some (Ok (xy_name f (xrd_title x) counter))
      | None => None
      end
  end.

(** ** The constructor, called with a file *)

(** What [xrd_from_file] takes from outside this module: the reader
    [read1DXRDFile] of [larch_plugins.xrmmap] ([None] when importing or
    calling it raises) and the builtin [float] on a string ([None] for
    ValueError; its correctly rounded decimal reading is not reproduced
    here). *)
Class xrd_io : Type := {
  read1DXRDFile : string -> option (list string * list pyobj);
  py_float : string -> option float
}.

(** [re.sub(',','',line)] *)
Fixpoint remove_commas (s : string) : string :=
  match s with
  | EmptyString => EmptyString
  | String c rest =>
      if Ascii.eqb c ","%char then remove_commas rest
      else String c (remove_commas rest)
  end.

(** [needle in hay] *)
Fixpoint contains (needle hay : string) : bool :=
  (String.prefix needle hay
   || match hay with
      | EmptyString => false
      | String _ rest => contains needle rest
      end)%bool.

(** The characters that [str.split()] takes for blanks (Python 3, within
    ASCII): tab to carriage return, the four separators 28 to 31, space. *)
Definition is_space (c : ascii) : bool :=
  let n := nat_of_ascii c in
  ((Nat.leb 9 n && Nat.leb n 13) || (Nat.leb 28 n && Nat.leb n 32))%bool.

(** [line.split()] *)
Fixpoint split_ws (s : string) : list string :=
  match s with
  | EmptyString => []
  | String c rest =>
      if is_space c then split_ws rest
      else
        match rest with
        | EmptyString => [String c EmptyString]
        | String c' _ =>
            if is_space c' then String c EmptyString :: split_ws rest
            else
              match split_ws rest with
              | w :: ws => String c w :: ws
              | [] => [String c EmptyString]
              end
        end
  end.

(** What the loop over the header lines has bound so far: the attribute
    [self.wavelength] and the local name [xtype], each [None] until a line
    assigns it. *)
Record header : Type := mk_header {
  h_wavelength : option float;
  h_xtype : option string
}.

Section FromFile.

Context {tools : xrd_tools} {io : xrd_io}.

(** [line.split()[k]] and [float(line.split()[k])] *)
Definition token {S} (line : string) (k : Z) : Py S string :=
  lift (py_index (split_ws line) k).

Definition to_float {S} (s : string) : Py S float :=
  match py_float s with
  | Some v => ret v
  | None => raise ValueError
  end.

Definition float_token {S} (line : string) (k : Z) : Py S float :=
  s <- token line k ;; to_float s.

(** The body of [for line in head]. The attributes that nothing reads
    ([splinefile], [pixelsize], [poni], [distance], [rotation], [energy],
    [polarization], [normalization]) are evaluated for the errors they can
    raise and not kept; [energy] is [E_from_lambda] of the wavelength,
    a closed formula of [xrd_tools]. *)
Definition header_line (line0 : string) : Py header unit :=
  let line := remove_commas line0 in
  when (contains "SplineFile" line)
    (_ <- token line (-1) ;; ret tt) ;;;
  when (contains "PixelSize" line)
    (_ <- float_token line 2 ;; _ <- float_token line 3 ;; ret tt) ;;;
  when (contains "PONI" line)
    (_ <- float_token line 2 ;; _ <- float_token line 3 ;; ret tt) ;;;
  when (contains "Detector" line)
    (_ <- float_token line (-2) ;; ret tt) ;;;
  when (contains "Rotations" line)
    (_ <- float_token line 2 ;; _ <- float_token line 3 ;;
     _ <- float_token line 4 ;; ret tt) ;;;
  when (contains "Wavelength" line)
    (v <- float_token line (-1) ;;
     fun h => (mk_header (Some (PrimFloat.mul v 1e10%float)) (h_xtype h),
               Ok tt)) ;;;
  when (contains "Polarization" line)
    (t <- token line (-1) ;;
     when (negb (String.eqb t "None"))
       (_ <- to_float t ;; ret tt)) ;;;
  when (contains "Normalization" line)
    (_ <- float_token line (-1) ;; ret tt) ;;;
  when (contains "q_" line || contains "2th_" line)%bool
    (t <- token line 1 ;;
     fun h => (mk_header (h_wavelength h) (Some t), Ok tt)).

Fixpoint header_lines (head : list string) : Py header unit :=
  match head with
  | [] => ret tt
  | line :: rest => header_line line ;;; header_lines rest
  end.

(** [os.path.split(filename)[-1]] *)
Definition basename (filename : string) : string :=
  snd (path_split filename).

(** [self.set_xy_data(dat,xtype)] at the end of [xrd_from_file], on an
    object that [__init__] is still building: [xtype] is a local name that
    only a marker line binds (UnboundLocalError, a NameError, otherwise),
    and [self.wavelength] an attribute that only a [Wavelength] line
    assigns, read after the block has been split. *)
Definition load_block (h : header) (dat : list pyobj) : Py world unit :=
  match h_xtype h with
  | None => raise (NameError "xtype")
  | Some xtype =>
      match h_wavelength h with
      | Some wl =>
          assign (set_wavelength (Some wl)) ;;;
          set_xy_data (Some dat) xtype
      | None =>
          '(rows, r, c) <- lift (np_array dat) ;;
          _ <- lift (split_xy rows r c) ;;
          raise (AttributeError "wavelength")
      end
  end.

(** [xrd_from_file(self, filename)] called by [__init__], with
    [verbose=True]: [false] when the reader failed and the method returned
    early, with no data attribute assigned. *)
Definition xrd_from_file (filename : string) : Py world bool :=
  match read1DXRDFile filename with
  | None =>
      call (print ("incorrect xy file format: " ++ basename filename)) ;;;
      ret false
  | Some (head, dat) =>
      call (print ("Opening xrd data file: " ++ basename filename)) ;;;
      match header_lines head (mk_header None None) with
      | (h, Ok _) => load_block h dat ;;; ret true
      | (_, Raise e) => raise e
      end
  end.

(** [xrd1d(file=filename)]: the output, and either the exception or the
    object, [None] standing for the object whose data attributes were
    never assigned (reading any of them raises AttributeError). After
    [xrd_from_file], [__init__] goes on to its defaults, [pki = []] and
    [imin = imax = None]. *)
Definition new_xrd1d_from_file (filename : string)
  : list string * result (option xrd1d) :=
  match (loaded <- xrd_from_file filename ;;
         assign (set_pki []) ;;;
         assign (set_range None None) ;;;
         ret loaded) (mk_world blank []) with
  | (w, Ok true) => (stdout w, Ok (Some (self w)))
  | (w, Ok false) => (stdout w, Ok None)
  | (w, Raise e) => (stdout w, Raise e)
  end.

End FromFile.

(** A reader for the closed examples of the constructor, in place of the
    file system: [d/ok.xy] holds a wavelength line, a marker line and the
    two columns [five] and [counts]; [d/bare.xy] holds the same columns
    under the wavelength line alone; no other path can be read. [float]
    reads the one number of these headers. The example over [d/ok.xy] runs
    the helpers of [plain_tools] and states nothing about the values they
    return. *)
#[warnings="-inexact-float"]
Definition two_files : xrd_io :=
  {| read1DXRDFile := fun filename =>
       if String.eqb filename "d/ok.xy"
       then Some (["# Wavelength: 1e-10"; "# q_A^-1 I"]%string,
                  [PArr five; PArr counts])
       else if String.eqb filename "d/bare.xy"
       then Some (["# Wavelength: 1e-10"]%string, [PArr five; PArr counts])
       else None;
     py_float := fun s =>
       if String.eqb s "1e-10" then Some 1e-10%float else None |}.

(** ** Proof automation *)

(** Unfolding the monad so that a method applied to a world computes. *)
Ltac py :=
  unfold bind, ret, raise, lift, get, assign, when, call, print in *;
  cbn in *.

(** Case analysis on every test and intermediate outcome of a method,
    innermost first. *)
Ltac outcomes :=
  repeat (match goal with
          | |- context [match ?x with _ => _ end] =>
              lazymatch x with
              | context [match _ with _ => _ end] => fail
              | _ => destruct x eqn:?
              end
          end; cbn).

(** * Properties *)

(** ** Arrays *)

Lemma squeeze_vector (l : list float) :
  length l <> 1 -> squeeze l = Arr1 l.
Proof.
  destruct l as [|v [|v' l]]; cbn; intros H; try reflexivity.
  now contradiction H.
Qed.

Lemma zeros_length (n : nat) : length (zeros n) = n.
Proof. apply repeat_length. Qed.

Lemma abs_diff_length (l : list float) (v : float) :
  length (abs_diff l v) = length l.
Proof. apply length_map. Qed.

(** The scan of [argmin] never leaves the array. *)
Lemma argmin_from_bound (l : list float) :
  forall mp mi i, mi < i -> argmin_from mp mi i l < i + length l.
Proof.
  induction l as [|v l IH]; intros mp mi i Hlt; cbn.
  - destruct (PrimFloat.is_nan mp); lia.
  - destruct (PrimFloat.is_nan mp); [lia|].
    destruct (negb (PrimFloat.leb mp v)).
    + specialize (IH v i (S i)). lia.
    + specialize (IH mp mi (S i)). lia.
Qed.

Lemma argmin_bound (l : list float) (i : nat) :
  argmin l = Ok i -> i < length l.
Proof.
  destruct l as [|v l]; cbn; [discriminate|].
  intros H; injection H as <-.
  pose proof (argmin_from_bound l v (mi := 0) (i := 1)). lia.
Qed.

Lemma argmin_total (l : list float) :
  l <> [] -> exists i, argmin l = Ok i /\ i < length l.
Proof.
  destruct l as [|v l]; [congruence|]. intros _.
  eexists; split; [reflexivity|].
  apply argmin_bound; reflexivity.
Qed.

(** ** The constructor *)

(** C1 (defect of the code). Called with arrays and no file, the constructor
    never yields a Pattern: whatever [x], [xtype] and the wavelength are,
    as soon as an intensity array [I] is passed the first test of
    [__init__] reads the name [xytq], which nothing binds, and the call ends
    in NameError. *)
Theorem new_xrd1d_with_arrays_raises {tools : xrd_tools} :
  forall label x xtype y wavelength energy,
    new_xrd1d label x xtype (Some y) wavelength energy
    = Raise (NameError "xytq").
Proof. intros. reflexivity. Qed.

(** Without [I] the constructor returns, and the object holds no array;
    data then comes in through [xrd_from_2d]. *)
Lemma new_xrd1d_without_arrays {tools : xrd_tools} :
  forall label x xtype wavelength energy,
    new_xrd1d label x xtype None wavelength energy
    = Ok (set_wavelength wavelength blank).
Proof. intros. reflexivity. Qed.

(** ** Conversion *)

Section ConversionFacts.

Context {tools : xrd_tools}.

(** An unrecognised tag: a message, three [None]s, no exception. *)
Lemma calculate_xvalues_unrecognised x xtype wavelength out :
  recognised xtype = false ->
  calculate_xvalues x xtype wavelength out
  = (out ++ ["The provided x-axis label (" ++ xtype
             ++ ") not correct. Check data."]%string,
     Ok (None, None, None)).
Proof.
  unfold recognised. intros H.
  apply orb_false_iff in H as [H Hd].
  apply orb_false_iff in H as [Hq Ht].
  unfold calculate_xvalues. rewrite Hq, Ht, Hd. reflexivity.
Qed.

(** A recognised tag and an input that [squeeze] leaves one-dimensional:
    three vectors, each as long as the input, and nothing printed. *)
Lemma calculate_xvalues_lengths (a : axis) x wavelength out :
  length x <> 1 ->
  exists q t d,
    calculate_xvalues x (tag a) wavelength out
    = (out, Ok (Some (Arr1 q), Some (Arr1 t), Some (Arr1 d))) /\
    length q = length x /\ length t = length x /\ length d = length x.
Proof.
  intros Hx. unfold calculate_xvalues.
  rewrite (squeeze_vector x Hx).
  destruct a, wavelength as [w|]; py;
    do 3 eexists; (split; [reflexivity|]);
    rewrite ?length_map, ?zeros_length; auto.
Qed.

(** Without a wavelength, the axes that need one are zero-filled. *)
Lemma calculate_xvalues_zero_fill x out :
  length x <> 1 ->
  calculate_xvalues x "q" None out
  = (out, Ok (Some (Arr1 x), Some (Arr1 (zeros (length x))),
              Some (Arr1 (map d_from_q x)))) /\
  calculate_xvalues x "2th" None out
  = (out, Ok (Some (Arr1 (zeros (length x))), Some (Arr1 x),
              Some (Arr1 (zeros (length x))))) /\
  calculate_xvalues x "d" None out
  = (out, Ok (Some (Arr1 (map q_from_d x)),
              Some (Arr1 (zeros (length x))), Some (Arr1 x))).
Proof.
  intros Hx. unfold calculate_xvalues.
  rewrite (squeeze_vector x Hx). py. auto.
Qed.

(** C9 (defect of the code). Without a wavelength the conversion is meant
    to return zero-filled arrays instead of failing, and it does so except
    for an input of one sample: [squeeze] makes that input zero-dimensional,
    [len] of it raises TypeError, and no array is returned. Here
    [calculate_xvalues([5.0], '2th', None)]. *)
Theorem calculate_xvalues_single_sample_raises :
  calculate_xvalues [5%float] "2th" None [] = ([], Raise TypeError).
Proof. reflexivity. Qed.

End ConversionFacts.

(** ** Construction from data *)

(** The two halves of a block that [set_xy_data] accepts are equally long
    vectors, and never a single sample. *)
Lemma split_xy_vectors items rows r c x y :
  np_array items = Ok (rows, r, c) ->
  split_xy rows r c = Ok (Vectors x y) ->
  length x = length y /\ length x <> 1.
Proof.
  unfold np_array. destruct (rows_of items) as [[|r0 rest]|]; try discriminate.
  destruct (rectangular (length r0) rest) eqn:Hrect; [|discriminate].
  intros H; injection H as <- <- <-.
  unfold split_xy. destruct (length r0 <? S (length rest)) eqn:Hlt.
  - apply Nat.ltb_lt in Hlt.
    destruct (length r0) as [|[|[|c]]] eqn:Hc; cbn; try discriminate.
    + destruct rest; intros H; inversion H; subst. cbn. split; [reflexivity|lia].
    + intros H; inversion H; subst. cbn.
      rewrite !length_map. split; [reflexivity|lia].
    + destruct (Nat.odd (S (S (S c)))); discriminate.
  - apply Nat.ltb_ge in Hlt.
    destruct (Nat.odd (S (length rest))); [discriminate|].
    destruct rest as [|y0 [|z rest]]; try discriminate.
    intros H; inversion H; subst.
    cbn in Hrect. rewrite andb_true_r in Hrect. apply Nat.eqb_eq in Hrect.
    cbn in Hlt. split; lia.
Qed.

Section ConstructionFacts.

Context {tools : xrd_tools}.

(** What a call of [set_xy_data] that returns leaves in the object: four
    vectors of one length [n], a zero background of that length, and the
    range [0, n]. *)
Lemma set_xy_data_returns items xtype w w' :
  set_xy_data (Some items) xtype w = (w', Ok tt) ->
  exists n q t d y,
    length q = n /\ length t = n /\ length d = n /\ length y = n /\
    self w' = mk_xrd1d (self_wavelength (self w))
                (Some (Arr1 q)) (Some (Arr1 t)) (Some (Arr1 d))
                (Some (Arr1 y)) (Some (Arr1 (zeros n)))
                (self_pki (self w))
                (Some 0%Z) (Some (Z.of_nat n)).
Proof.
  destruct w as [[wl q0 t0 d0 y0 b0 p0 i0 j0] out]. unfold set_xy_data. py.
  destruct (np_array items) as [[[rows r] c]|e] eqn:Ha; [|discriminate].
  destruct (split_xy rows r c) as [[x y|]|e] eqn:Hs; try discriminate.
  destruct (split_xy_vectors _ Ha Hs) as [Hxy Hx1].
  unfold calculate_xvalues.
  rewrite (squeeze_vector x Hx1).
  assert (Hy : squeeze y = Arr1 y) by (apply squeeze_vector; lia).
  rewrite Hy.
  destruct (startswith xtype "q");
    [|destruct (startswith xtype "2th");
      [|destruct (startswith xtype "d")]];
    destruct wl as [wl|]; py;
    try discriminate;
    intros H; injection H as <-; cbn;
    rewrite ?length_map, ?zeros_length, <- ?Hxy;
    exists (length x); do 4 eexists;
    (split; [|split; [|split; [|split; [|reflexivity]]]]);
    rewrite ?length_map, ?zeros_length; auto.
Qed.

Lemma set_xy_data_pattern items xtype w w' :
  set_xy_data (Some items) xtype w = (w', Ok tt) ->
  exists n,
    pattern n (self w') /\
    self_imin (self w') = Some 0%Z /\
    self_imax (self w') = Some (Z.of_nat n).
Proof.
  intros H.
  apply set_xy_data_returns in H as (n & q & t & d & y & Hq & Ht & Hd & Hy & ->).
  exists n. cbn. split; [now constructor|split; reflexivity].
Qed.

(** A call of [set_xy_data] that returns has printed nothing: the one
    message of the conversion comes with three [None]s, on which
    [len(self.q)] raises. *)
Lemma set_xy_data_silent items xtype w w' :
  set_xy_data (Some items) xtype w = (w', Ok tt) ->
  stdout w' = stdout w.
Proof.
  destruct w as [[wl q0 t0 d0 y0 b0 p0 i0 j0] out]. unfold set_xy_data. py.
  destruct (np_array items) as [[[rows r] c]|e] eqn:Ha; [|discriminate].
  destruct (split_xy rows r c) as [[x y|]|e] eqn:Hs; try discriminate.
  destruct (split_xy_vectors _ Ha Hs) as [Hxy Hx1].
  unfold calculate_xvalues.
  rewrite (squeeze_vector x Hx1).
  destruct (startswith xtype "q");
    [|destruct (startswith xtype "2th");
      [|destruct (startswith xtype "d")]];
    destruct wl as [wl|]; py;
    try discriminate;
    intros H; injection H as <-; reflexivity.
Qed.

(** The object [sample] is what [set_xy_data] builds from the two rows
    [five] and [counts] under the tag ['2th'] when no wavelength is set. *)
Lemma sample_constructed :
  set_xy_data (Some [PArr five; PArr counts]) "2th" (mk_world blank [])
  = (mk_world sample [], Ok tt).
Proof. reflexivity. Qed.

End ConstructionFacts.

(** ** The range *)

Arguments np_min : simpl never.
Arguments np_max : simpl never.
Arguments argmin : simpl never.
Arguments abs_diff : simpl never.
Arguments slice : simpl never.
Arguments zeros : simpl never.
Arguments np_sub : simpl never.

Lemma np_min_total (l : list float) :
  l <> [] -> exists lo, np_min l = Ok lo.
Proof. destruct l; [congruence|]. intros _. eexists. reflexivity. Qed.

Lemma np_max_total (l : list float) :
  l <> [] -> exists hi, np_max l = Ok hi.
Proof. destruct l; [congruence|]. intros _. eexists. reflexivity. Qed.

Lemma abs_diff_nonempty (l : list float) (v : float) :
  l <> [] -> abs_diff l v <> [].
Proof. destruct l; [congruence|]. discriminate. Qed.

(** The nearest sample to a bound [v] exists as soon as there is a sample,
    and its position is one of the array. *)
Lemma nearest_bound (l : list float) (v : float) :
  l <> [] ->
  exists i, argmin (abs_diff l v) = Ok i /\ i < length l.
Proof.
  intros Hl.
  destruct (argmin_total (abs_diff_nonempty v Hl)) as (i & Hi & Hlt).
  rewrite abs_diff_length in Hlt. eauto.
Qed.


(** With a tag that none of the three tests accepts and no [xi], the last
    branch is taken: TypeError, from the message's format. *)
Lemma slct_xaxis_unrecognised xtype w :
  recognised xtype = false ->
  slct_xaxis xtype None w = (w, Raise TypeError).
Proof.
  unfold recognised. intros H.
  apply orb_false_iff in H as [H Hd].
  apply orb_false_iff in H as [Hq Ht].
  unfold slct_xaxis. cbn [eqz]. rewrite Hq, Ht, Hd. reflexivity.
Qed.



(** ** What every call preserves *)

Section Preservation.

Context {kwargs : Type} {fitting : xrd_fitting kwargs}.

(** No call assigns one of the four sample arrays or the wavelength,
    whether it returns or raises. *)
Lemma run_keeps_arrays (c : method kwargs) (w : world) :
  let o' := self (fst (run c w)) in
  self_q o' = self_q (self w) /\ self_twth o' = self_twth (self w) /\
  self_d o' = self_d (self w) /\ self_I o' = self_I (self w) /\
  self_wavelength o' = self_wavelength (self w).
Proof.
  destruct w as [[wl q t d y b p i j] out].
  destruct c; cbn [run];
    unfold find_peaks, fit_background, reset_bkgd, set_trim, slct_xaxis,
           plot, all_data, reset_range, sliced; py;
    outcomes; auto.
Qed.

(** A pattern of [n] samples stays one: the background stays a vector. *)
Lemma run_keeps_pattern (c : method kwargs) (w : world) (n : nat) :
  pattern n (self w) -> pattern n (self (fst (run c w))).
Proof.
  destruct w as [o out]. cbn [self]. intros Hp. destruct Hp.
  destruct c; cbn [run];
    unfold find_peaks, fit_background, reset_bkgd, set_trim, slct_xaxis,
           plot, all_data, reset_range, sliced; py;
    outcomes; constructor; assumption.
Qed.






End Preservation.

(** ** The trim window *)

(** [trimmed] is [sample] after [set_trim(2, 4, '2th')]. *)
Lemma trimmed_reached :
  set_trim 2 4 "2th" None (mk_world sample [])
  = (mk_world trimmed [], Ok tt).
Proof. reflexivity. Qed.

(** C2 (defect of the code). For the Pattern with [q = [1,2,3,4,5]],
    intensity [[0,5,10,5,0]] and wavelength [1.0], [set_trim(2, 4, 'q')]
    stores the positions of the two nearest samples, [imin = 1] and
    [imax = 3], and [all_data] then slices [I[1:3]]: the intensities are
    [[5, 10]], without the sample at the high end that the claim includes
    ([rangeEnd = 4], [[5, 10, 5]]). The Pattern is built the way the
    constructor allows: without [I], then [set_xy_data]. *)
Theorem set_trim_drops_high_endpoint {tools : xrd_tools} :
  exists o w1 w2 w3 cols,
    new_xrd1d None None None None (Some 1%float) None = Ok o /\
    set_xy_data (Some [PArr five; PArr counts]) "q" (mk_world o [])
    = (w1, Ok tt) /\
    set_trim 2 4 "q" None w1 = (w2, Ok tt) /\
    self_imin (self w2) = Some 1%Z /\
    self_imax (self w2) = Some 3%Z /\
    all_data false false w2 = (w3, Ok cols) /\
    nth_error cols 3 = Some (Some (Arr1 [5; 10]%float)).
Proof. do 5 eexists. repeat split. Qed.

(** C4 (defect of the code). On the five samples [1..5] of [sample], a low
    value at or below the minimum gives [imin = 0], as claimed; a high
    value at or above the maximum gives [imax = 4 = len(x) - 1], not the
    array length [5] that [set_xy_data] and the [reset] flag store for the
    full range. Here [set_trim(1, 5, '2th')] and [set_trim(0, 10, '2th')]. *)
Theorem set_trim_full_range_is_short :
  set_trim 1 5 "2th" None (mk_world sample [])
  = (mk_world (set_range (Some 0%Z) (Some 4%Z) sample) [], Ok tt) /\
  set_trim 0 10 "2th" None (mk_world sample [])
  = (mk_world (set_range (Some 0%Z) (Some 4%Z) sample) [], Ok tt) /\
  self_I sample = Some (Arr1 counts) /\ length counts = 5.
Proof. repeat split. Qed.






(** ** Axis tags and array lengths *)

(** C3, counterexample. [calculate_xvalues([1,2,3,4,5], 'angle', 1.0)]
    raises nothing: it prints its message and returns three [None]s. *)
Lemma unknown_tag_is_not_an_error :
  calculate_xvalues (tools := plain_tools) five "angle" (Some 1%float) []
  = (["The provided x-axis label (angle) not correct. Check data."]%string,
     Ok (None, None, None)).
Proof. reflexivity. Qed.

(** C3 (amended). A tag that starts with none of ['q'], ['2th'] and ['d']
    makes the conversion print one line that names the tag and return
    [(None, None, None)]; no exception is raised, whatever the input array
    and the wavelength. *)
Theorem unknown_tag_prints_and_returns_none {tools : xrd_tools} :
  forall x xtype wavelength out,
    recognised xtype = false ->
    calculate_xvalues x xtype wavelength out
    = (out ++ ["The provided x-axis label (" ++ xtype
               ++ ") not correct. Check data."]%string,
       Ok (None, None, None)).
Proof. intros. now apply calculate_xvalues_unrecognised. Qed.

(** The tag ['tth'], after one line of earlier output. *)
Lemma unknown_tag_prints_and_returns_none_witness :
  calculate_xvalues (tools := plain_tools) counts "tth" None ["ready"%string]
  = (["ready"; "The provided x-axis label (tth) not correct. Check data."]%string,
     Ok (None, None, None)).
Proof.
  apply (@unknown_tag_prints_and_returns_none plain_tools counts "tth" None).
  reflexivity.
Defined.

(** C8, counterexample. The conversion does not always return three arrays:
    [calculate_xvalues([1,2,3], 'x', None)] returns three [None]s. *)
Lemma conversion_may_return_no_array :
  calculate_xvalues (tools := plain_tools) [1; 2; 3]%float "x" None []
  = (["The provided x-axis label (x) not correct. Check data."]%string,
     Ok (None, None, None)).
Proof. reflexivity. Qed.

(** C8 (amended). After [set_xy_data] returns, [q], [twth], [d] and [I] are
    four vectors of one length; every call of a method leaves a pattern of
    [n] samples a pattern of [n] samples, and assigns none of the four
    arrays; and the conversion, for each of the three tags and an input
    that [squeeze] leaves one-dimensional, returns three vectors as long
    as the input. *)
Theorem four_arrays_one_length
    {tools : xrd_tools} {kwargs : Type} {fitting : xrd_fitting kwargs} :
  (forall items xtype w w',
      set_xy_data (Some items) xtype w = (w', Ok tt) ->
      exists n, pattern n (self w')) /\
  (forall (c : method kwargs) w n,
      pattern n (self w) ->
      let o' := self (fst (run c w)) in
      pattern n o' /\
      self_q o' = self_q (self w) /\ self_twth o' = self_twth (self w) /\
      self_d o' = self_d (self w) /\ self_I o' = self_I (self w)) /\
  (forall (a : axis) x wavelength out,
      length x <> 1 ->
      exists q t d,
        calculate_xvalues x (tag a) wavelength out
        = (out, Ok (Some (Arr1 q), Some (Arr1 t), Some (Arr1 d))) /\
        length q = length x /\ length t = length x /\
        length d = length x).
Proof.
  split; [|split].
  - intros items xtype w w' H.
    apply set_xy_data_pattern in H as (n & Hp & _). eauto.
  - intros c w n Hp. cbn zeta. split.
    + now apply run_keeps_pattern.
    + pose proof (run_keeps_arrays c w) as H. cbn zeta in H. tauto.
  - intros a x wavelength out. apply calculate_xvalues_lengths.
Qed.

(** The second part at [fit_background] on [trimmed]. *)
Lemma four_arrays_one_length_witness :
  pattern 5
    (self (fst (run (fitting := near_fitting) FitBackground
                    (mk_world trimmed [])))).
Proof.
  refine (proj1 (proj1 (proj2 (@four_arrays_one_length plain_tools unit near_fitting))
                   FitBackground (mk_world trimmed []) 5 _)).
  constructor; reflexivity.
Defined.

(** ** The background *)

(** [b[-1]] is the last sample of a curve that has one. *)
Lemma py_index_last (b : list float) :
  b <> [] -> py_index b (-1) = Ok (last b fzero).
Proof.
  destruct b as [|v b] using rev_ind; [congruence|]. intros _.
  unfold py_index. rewrite length_app, last_last. cbn [length Z.ltb Z.compare].
  replace (-1 + Z.of_nat (length b + 1))%Z with (Z.of_nat (length b)) by lia.
  replace ((0 <=? Z.of_nat (length b))%Z
           && (Z.of_nat (length b) <? Z.of_nat (length b + 1))%Z)%bool
    with true by (symmetry; apply andb_true_iff; split;
                  [apply Z.leb_le|apply Z.ltb_lt]; lia).
  rewrite Nat2Z.id, nth_error_app2, Nat.sub_diag by lia. reflexivity.
Qed.

Section BackgroundFacts.

Context {kwargs : Type} {fitting : xrd_fitting kwargs}.

(** The three outcomes of [fit_background] once both slices exist: the
    curve is stored as returned when it is not shorter than the range; a
    shorter curve with a sample gets its last sample appended once; an
    empty curve for a range with samples is stored, and [bkgd[-1]] raises
    IndexError. *)
Lemma fit_background_cases w x y :
  getslice (self_q (self w)) (self_imin (self w)) (self_imax (self w)) = Ok x ->
  getslice (self_I (self w)) (self_imin (self w)) (self_imax (self w)) = Ok y ->
  let b := xrd_background x y in
  fit_background w
  = if length b <? length y then
      match b with
      | [] => (mk_world (set_bkgd (Some (Arr1 [])) (self w)) (stdout w),
               Raise IndexError)
      | _ => (mk_world (set_bkgd (Some (Arr1 (b ++ [last b fzero]))) (self w))
                       (stdout w), Ok tt)
      end
    else (mk_world (set_bkgd (Some (Arr1 b)) (self w)) (stdout w), Ok tt).
Proof.
  destruct w as [o out]. cbn [self stdout]. intros Hx Hy. cbn zeta.
  unfold fit_background, bind, get, lift, assign, when, ret.
  cbn [self stdout]. rewrite Hx, Hy.
  destruct (length (xrd_background x y) <? length y); [|reflexivity].
  destruct (xrd_background x y) as [|v b'] eqn:Eb; [reflexivity|].
  rewrite py_index_last by discriminate. reflexivity.
Qed.

End BackgroundFacts.

(** C6, counterexample. With an estimator whose curve is two samples short
    ([short_fitting]: three samples for the five of [sample]),
    [fit_background] returns normally and stores four samples: one short
    of the active range, and no error. *)
Lemma fit_background_two_short :
  fit_background (fitting := short_fitting) (mk_world sample [])
  = (mk_world (set_bkgd (Some (Arr1 [0; 0; 0; 0]%float)) sample) [], Ok tt) /\
  slice counts (self_imin sample) (self_imax sample) = counts /\
  length counts = 5.
Proof. repeat split. Qed.

(** C6 (amended). When the estimator's curve has a sample and is shorter
    than the active range, by one sample or by more, [fit_background]
    stores the curve with its last sample appended once and returns; no
    error is raised. Shorter by exactly one, the stored background is as
    long as the active range. *)
Theorem fit_background_pads_once
    {kwargs : Type} {fitting : xrd_fitting kwargs} :
  forall w x y,
    getslice (self_q (self w)) (self_imin (self w)) (self_imax (self w))
    = Ok x ->
    getslice (self_I (self w)) (self_imin (self w)) (self_imax (self w))
    = Ok y ->
    let b := xrd_background x y in
    b <> [] -> length b < length y ->
    fit_background w
    = (mk_world (set_bkgd (Some (Arr1 (b ++ [last b fzero]))) (self w))
                (stdout w), Ok tt) /\
    (length b + 1 = length y ->
     length (b ++ [last b fzero]) = length y).
Proof.
  intros w x y Hx Hy b Hb Hlt. split.
  - rewrite (@fit_background_cases kwargs fitting w x y Hx Hy). fold b.
    apply Nat.ltb_lt in Hlt. rewrite Hlt.
    destruct b; [congruence|reflexivity].
  - intros H. rewrite length_app. cbn. lia.
Qed.

(** An estimator one sample short of the five of [sample]. *)
Lemma fit_background_pads_once_witness :
  fit_background (fitting := near_fitting) (mk_world sample [])
  = (mk_world (set_bkgd (Some (Arr1 [1; 1; 1; 1; 1]%float)) sample) [],
     Ok tt) /\
  (4 + 1 = 5 -> length [1; 1; 1; 1; 1]%float = 5).
Proof.
  refine (@fit_background_pads_once unit near_fitting (mk_world sample [])
            (zeros 5) counts _ _ _ _).
  - reflexivity.
  - reflexivity.
  - discriminate.
  - cbn. lia.
Defined.

(** ** [plot] and [all_data] *)




(** ** The peak table *)

(** The length of a slice depends on the length of the sequence only. *)
Lemma slice_length {A} (l : list A) (i j : option Z) :
  length (slice l i j)
  = Nat.min (slice_stop (length l) j - slice_start (length l) i)
            (length l - slice_start (length l) i).
Proof. unfold slice. now rewrite length_firstn, length_skipn. Qed.

Lemma slice_length_eq {A} (l1 l2 : list A) (i j : option Z) :
  length l1 = length l2 -> length (slice l1 i j) = length (slice l2 i j).
Proof. intros H. now rewrite !slice_length, H. Qed.

(** Inside its row, a Python index reads the sample that [pick] names. *)
Lemma py_index_pick (row : list float) (k : Z) :
  valid_index (length row) k -> py_index row k = Ok (pick row k).
Proof.
  unfold valid_index, py_index, pick. intros Hk.
  set (k' := if (k <? 0)%Z then (k + Z.of_nat (length row))%Z else k).
  assert (Hk' : (0 <= k' < Z.of_nat (length row))%Z).
  { unfold k'. destruct (Z.ltb_spec k 0); lia. }
  replace ((0 <=? k')%Z && (k' <? Z.of_nat (length row))%Z)%bool with true
    by (symmetry; apply andb_true_iff; split;
        [apply Z.leb_le|apply Z.ltb_lt]; lia).
  destruct (nth_error row (Z.to_nat k')) as [v|] eqn:E.
  - now rewrite (nth_error_nth _ _ fzero E).
  - apply nth_error_None in E. lia.
Qed.

Lemma table_column_pick (m : nat) (k : Z) (tbl : list (list float)) :
  Forall (fun row => length row = m) tbl -> valid_index m k ->
  table_column tbl k = Ok (map (fun row => pick row k) tbl).
Proof.
  intros Hrows Hk. induction Hrows as [|row tbl Hrow _ IH]; [reflexivity|].
  cbn [table_column map]. subst m.
  now rewrite (@py_index_pick row k Hk), IH.
Qed.

(** [all_data[3]] is the fourth of the five rows. *)
Lemma py_index_fourth {A} (a b c d e : A) :
  py_index [a; b; c; d; e] 3 = Ok d.
Proof. reflexivity. Qed.

Lemma replace_nth_app {A} (l1 l2 : list A) (x v : A) :
  replace_nth (length l1) v (l1 ++ x :: l2) = l1 ++ v :: l2.
Proof. induction l1 as [|h l1 IH]; cbn; [reflexivity|now rewrite IH]. Qed.

(** Assigning column [i] of a table whose rows are given by [g], from a
    column given by [f]. *)
Lemma set_column_map {R} (f : R -> float) (g : R -> list float) (i : nat)
    (rows : list R) :
  set_column i (map f rows) (map g rows)
  = map (fun r => replace_nth i (f r) (g r)) rows.
Proof.
  unfold set_column.
  induction rows as [|r rows IH]; cbn; [reflexivity|now rewrite IH].
Qed.

(** The loop of [find_peaks]: once the columns of the peaks [done] are
    filled and those of [rest] are still zero, running the loop over
    [rest] fills them all. *)
Lemma fill_columns_spec (m : nat) (tbl : list (list float)) :
  Forall (fun row => length row = m) tbl ->
  forall rest done,
    Forall (valid_index m) rest ->
    fill_columns tbl (length done) rest
      (map (fun row => map (pick row) done ++ repeat fzero (length rest)) tbl)
    = Ok (map (fun row => map (pick row) (done ++ rest)) tbl).
Proof.
  intros Hrows rest.
  induction rest as [|k rest IH]; intros done Hvalid.
  - cbn. f_equal. apply map_ext. intros row.
    now rewrite !app_nil_r.
  - inversion Hvalid as [|k' rest' Hk Hrest]; subst.
    cbn [fill_columns].
    rewrite (@table_column_pick m k tbl Hrows Hk).
    rewrite set_column_map.
    replace (S (length done)) with (length (done ++ [k]))
      by (rewrite length_app; cbn; lia).
    replace (map (fun r => replace_nth (length done) (pick r k)
                             (map (pick r) done
                              ++ repeat fzero (length (k :: rest)))) tbl)
      with (map (fun row => map (pick row) (done ++ [k])
                            ++ repeat fzero (length rest)) tbl).
    + rewrite (IH (done ++ [k]) Hrest). now rewrite <- app_assoc.
    + apply map_ext. intros row. cbn [length repeat].
      rewrite <- (length_map (pick row) done), replace_nth_app.
      now rewrite map_app, <- app_assoc.
Qed.

Section PeakFacts.

Context {kwargs : Type} {fitting : xrd_fitting kwargs}.

Lemma repaired_length ys b : length (repaired ys b) = length ys.
Proof.
  unfold repaired. destruct (Nat.eqb_spec (length ys) (length b)) as [E|E].
  - now rewrite E.
  - apply zeros_length.
Qed.

Lemma intensities_length bkgd ys b :
  length b = length ys -> length (intensities bkgd ys b) = length ys.
Proof.
  intros H. unfold intensities. destruct bkgd; [|reflexivity].
  rewrite length_map, length_combine. lia.
Qed.

Lemma np_sub_same_length ys b :
  length b = length ys ->
  np_sub ys (Some (Arr1 b)) = Ok (intensities true ys b).
Proof.
  intros H. unfold np_sub. now rewrite H, Nat.eqb_refl.
Qed.

(** [all_data(bkgd=...)] on an object whose five attributes are vectors:
    it always returns, with the five active columns. *)
Lemma all_data_columns wl q t d y b p i j out bkgd :
  let o := mk_xrd1d wl (Some (Arr1 q)) (Some (Arr1 t)) (Some (Arr1 d))
                    (Some (Arr1 y)) (Some (Arr1 b)) p i j in
  let b' := repaired (slice y i j) b in
  all_data false bkgd (mk_world o out)
  = (mk_world (set_bkgd (Some (Arr1 b')) o) out,
     Ok [Some (Arr1 (slice q i j)); Some (Arr1 (slice t i j));
         Some (Arr1 (slice d i j));
         Some (Arr1 (intensities bkgd (slice y i j) b'));
         Some (Arr1 b')]).
Proof.
  cbn zeta. unfold all_data, reset_range, sliced, repaired. py.
  destruct (Nat.eqb (length (slice y i j)) (length b)) eqn:E; py.
  - destruct bkgd; py; [|reflexivity].
    apply Nat.eqb_eq in E.
    rewrite np_sub_same_length by (symmetry; exact E). reflexivity.
  - destruct bkgd; py; [|reflexivity].
    rewrite np_sub_same_length by apply zeros_length. reflexivity.
Qed.

End PeakFacts.

(** C7. On a pattern (four vectors of one length, a background vector),
    [find_peaks] stores the peaks that the finder, and the filter when a
    threshold is given, keep for the active intensity column, and returns
    five rows, one per column of the active table in the order [q],
    [twth], [d], intensity, background, each holding the samples of that
    column at the kept positions: a table of shape [(5, numPeaks)]. This
    needs every kept position to be one of the active table. With no peak
    kept, it returns five empty rows and raises nothing. *)
Theorem find_peaks_table {kwargs : Type} {fitting : xrd_fitting kwargs} :
  forall wl q t d y b p i j out bkgd threshold (kw : kwargs) n,
    length q = n -> length t = n -> length d = n -> length y = n ->
    let o := mk_xrd1d wl (Some (Arr1 q)) (Some (Arr1 t)) (Some (Arr1 d))
                      (Some (Arr1 y)) (Some (Arr1 b)) p i j in
    let b' := repaired (slice y i j) b in
    let ys := intensities bkgd (slice y i j) b' in
    let pk := kept_peaks ys threshold kw in
    let columns := [slice q i j; slice t i j; slice d i j; ys; b'] in
    (Forall (valid_index (length ys)) pk ->
     find_peaks bkgd threshold kw (mk_world o out)
     = (mk_world (set_pki pk (set_bkgd (Some (Arr1 b')) o)) out,
        Ok (map (fun column => map (pick column) pk) columns))) /\
    (pk = [] ->
     find_peaks bkgd threshold kw (mk_world o out)
     = (mk_world (set_pki [] (set_bkgd (Some (Arr1 b')) o)) out,
        Ok [[]; []; []; []; []])).
Proof.
  intros wl q t d y b p i j out bkgd threshold kw n Hq Ht Hd Hy.
  cbn zeta.
  set (b' := repaired (slice y i j) b).
  set (ys := intensities bkgd (slice y i j) b').
  set (pk := kept_peaks ys threshold kw).
  assert (Hb' : length b' = length (slice y i j)) by apply repaired_length.
  assert (Hys : length ys = length (slice y i j))
    by (apply intensities_length; exact Hb').
  assert (Hqs : length (slice q i j) = length ys)
    by (rewrite Hys; apply slice_length_eq; congruence).
  assert (Hts : length (slice t i j) = length ys)
    by (rewrite Hys; apply slice_length_eq; congruence).
  assert (Hds : length (slice d i j) = length ys)
    by (rewrite Hys; apply slice_length_eq; congruence).
  assert (Hrows : Forall (fun row => length row = length ys)
                    [slice q i j; slice t i j; slice d i j; ys; b'])
    by (repeat constructor; congruence).
  assert (Hmain :
    Forall (valid_index (length ys)) pk ->
    find_peaks bkgd threshold kw
      (mk_world (mk_xrd1d wl (Some (Arr1 q)) (Some (Arr1 t)) (Some (Arr1 d))
                          (Some (Arr1 y)) (Some (Arr1 b)) p i j) out)
    = (mk_world
         (set_pki pk
            (set_bkgd (Some (Arr1 b'))
               (mk_xrd1d wl (Some (Arr1 q)) (Some (Arr1 t)) (Some (Arr1 d))
                         (Some (Arr1 y)) (Some (Arr1 b)) p i j))) out,
       Ok (map (fun column => map (pick column) pk)
               [slice q i j; slice t i j; slice d i j; ys; b']))).
  { intros Hvalid.
    pose proof (@fill_columns_spec (length ys) _ Hrows pk [] Hvalid) as Hfill.
    cbn [length map app] in Hfill.
    unfold find_peaks. unfold bind at 1.
    rewrite all_data_columns. fold b'. fold ys.
    unfold np_table. cbn [vectors_of option_map rectangular forallb].
    rewrite Hts, Hds, Hb', <- Hys, Hqs, !Nat.eqb_refl.
    cbn [andb]. unfold bind, lift, assign, get, ret.
    rewrite py_index_fourth.
    subst pk. unfold zeros.
    destruct threshold as [th|];
      cbn [self stdout self_pki set_pki kept_peaks repeat] in *;
      rewrite Hfill; reflexivity. }
  split; [exact Hmain|].
  intros Hnil. rewrite Hmain by (rewrite Hnil; constructor).
  rewrite Hnil. reflexivity.
Qed.

(** One peak at position 2 of [sample]: the samples [0, 3, 0, 10, 0]. *)
Lemma find_peaks_table_witness :
  find_peaks (fitting := near_fitting) false None tt (mk_world sample [])
  = (mk_world (set_pki [2%Z] sample) [],
     Ok [[0]; [3]; [0]; [10]; [0]]%float).
Proof.
  refine (proj1 (@find_peaks_table unit near_fitting None (zeros 5) five
                   (zeros 5) counts (zeros 5) [] (Some 0%Z) (Some 5%Z) []
                   false None tt 5 _ _ _ _) _).
  - reflexivity.
  - reflexivity.
  - reflexivity.
  - reflexivity.
  - repeat constructor; cbn; lia.
Defined.

(** * Further properties of the container *)

(** ** Trimming again, and resetting *)

(** X1. The window that [set_trim] stores depends on the selected axis and
    on the two bounds only: whatever range the object held before, a call
    that returns leaves the same object, so calling it a second time with
    the same arguments changes nothing. *)
Theorem set_trim_forgets_the_previous_range :
  forall xmin xmax xtype xi w w',
    set_trim xmin xmax xtype xi w = (w', Ok tt) ->
    (forall i j,
        set_trim xmin xmax xtype xi
          (mk_world (set_range i j (self w)) (stdout w)) = (w', Ok tt)) /\
    set_trim xmin xmax xtype xi w' = (w', Ok tt).
Proof.
  intros xmin xmax xtype xi [[wl q t d y b p i0 j0] out] w'.
  assert (Hgen : forall i j,
    set_trim xmin xmax xtype xi
      (mk_world (mk_xrd1d wl q t d y b p i0 j0) out) = (w', Ok tt) ->
    set_trim xmin xmax xtype xi
      (mk_world (mk_xrd1d wl q t d y b p i j) out) = (w', Ok tt)).
  { intros i j. unfold set_trim, slct_xaxis. py.
    outcomes; intros H; inversion H; reflexivity. }
  intros H. split.
  - intros i j. cbn. now apply Hgen.
  - pose proof H as H'. revert H'.
    unfold set_trim at 1. unfold slct_xaxis. py.
    outcomes; intros H'; inversion H'; subst; now apply Hgen.
Qed.

(** Two calls with the same bounds on [sample]. *)
Lemma set_trim_forgets_the_previous_range_witness :
  set_trim 2 4 "2th" None (mk_world trimmed []) = (mk_world trimmed [], Ok tt).
Proof.
  refine (proj2 (@set_trim_forgets_the_previous_range 2%float 4%float "2th"
                   None (mk_world sample []) (mk_world trimmed []) _)).
  reflexivity.
Defined.

(** [l[0:len(l)]] is the whole of [l]. *)
Lemma slice_full {A} (l : list A) (n : nat) :
  length l = n -> slice l (Some 0%Z) (Some (Z.of_nat n)) = l.
Proof.
  intros <-. unfold slice, slice_start, slice_stop, clip_bound.
  cbn [Z.ltb Z.compare].
  replace (Z.of_nat (length l) <? 0)%Z with false
    by (symmetry; apply Z.ltb_ge; lia).
  rewrite Z.min_id, Nat2Z.id.
  replace (Z.to_nat (Z.min 0 (Z.of_nat (length l)))) with 0 by lia.
  rewrite Nat.sub_0_r. cbn [skipn]. apply firstn_all.
Qed.

Lemma repaired_same ys b :
  length b = length ys -> repaired ys b = b.
Proof. intros H. unfold repaired. now rewrite H, Nat.eqb_refl. Qed.

(** With [reset], [all_data] is [all_data] without it on the object whose
    range is [0, len(I)]. *)
Lemma all_data_reset wl q t d y b p i j out bkgd :
  all_data true bkgd
    (mk_world (mk_xrd1d wl q t d (Some (Arr1 y)) b p i j) out)
  = all_data false bkgd
      (mk_world (mk_xrd1d wl q t d (Some (Arr1 y)) b p
                          (Some 0%Z) (Some (Z.of_nat (length y)))) out).
Proof. reflexivity. Qed.

(** X2. With [reset=True], [all_data] on a pattern undoes any trim: it
    stores the range [0, length] and returns the four arrays whole (the
    intensities minus the background when asked), with a background as long
    as they are. *)
Theorem all_data_reset_returns_whole_arrays :
  forall wl q t d y b p i j out bkgd n,
    length q = n -> length t = n -> length d = n -> length y = n ->
    let b' := repaired y b in
    all_data true bkgd
      (mk_world (mk_xrd1d wl (Some (Arr1 q)) (Some (Arr1 t)) (Some (Arr1 d))
                          (Some (Arr1 y)) (Some (Arr1 b)) p i j) out)
    = (mk_world (mk_xrd1d wl (Some (Arr1 q)) (Some (Arr1 t)) (Some (Arr1 d))
                          (Some (Arr1 y)) (Some (Arr1 b')) p
                          (Some 0%Z) (Some (Z.of_nat n))) out,
       Ok [Some (Arr1 q); Some (Arr1 t); Some (Arr1 d);
           Some (Arr1 (intensities bkgd y b')); Some (Arr1 b')]).
Proof.
  intros wl q t d y b p i j out bkgd n Hq Ht Hd Hy. cbn zeta.
  rewrite all_data_reset, all_data_columns. cbn zeta.
  rewrite Hy, (slice_full y Hy), (slice_full q Hq), (slice_full t Ht),
    (slice_full d Hd).
  reflexivity.
Qed.

(** After [set_trim(2, 4, '2th')] on [sample], everything is back. *)
Lemma all_data_reset_returns_whole_arrays_witness :
  all_data true false (mk_world trimmed [])
  = (mk_world sample [],
     Ok [Some (Arr1 (zeros 5)); Some (Arr1 five); Some (Arr1 (zeros 5));
         Some (Arr1 counts); Some (Arr1 (zeros 5))]).
Proof.
  refine (@all_data_reset_returns_whole_arrays None (zeros 5) five (zeros 5)
            counts (zeros 5) [] (Some 1%Z) (Some 3%Z) [] false 5 _ _ _ _);
    reflexivity.
Defined.

(** X3. On a pattern, a second [all_data] with the same flags returns what
    the first returned and changes nothing: the first call has already
    stored the range and a background of the active length. *)
Theorem all_data_twice :
  forall w n reset bkgd w1 r,
    pattern n (self w) ->
    all_data reset bkgd w = (w1, r) ->
    all_data reset bkgd w1 = (w1, r).
Proof.
  intros [o out] n reset bkgd w1 r Hp. cbn [self] in Hp. destruct Hp.
  destruct reset.
  - rewrite all_data_reset, all_data_columns. cbn zeta.
    intros Heq; injection Heq as <- <-.
    unfold set_bkgd.
    cbn [self_wavelength self_q self_twth self_d self_I self_pki
         self_imin self_imax].
    rewrite all_data_reset, all_data_columns. cbn zeta.
    now rewrite (@repaired_same _ _ (repaired_length _ _)).
  - rewrite all_data_columns. cbn zeta.
    intros Heq; injection Heq as <- <-.
    unfold set_bkgd.
    cbn [self_wavelength self_q self_twth self_d self_I self_pki
         self_imin self_imax].
    rewrite all_data_columns. cbn zeta.
    now rewrite (@repaired_same _ _ (repaired_length _ _)).
Qed.

(** The second call on [trimmed]. *)
Lemma all_data_twice_witness :
  all_data false true (fst (all_data false true (mk_world trimmed [])))
  = all_data false true (mk_world trimmed []).
Proof.
  refine (@all_data_twice (mk_world trimmed []) 5 false true _ _ _ _).
  - constructor; reflexivity.
  - reflexivity.
Defined.

(** ** An object without data *)

(** X4. On the object that the constructor returns (called without [I],
    the only call that returns), each of [plot], [set_trim], [all_data],
    [fit_background] and [find_peaks], whatever its arguments, raises
    TypeError and leaves the object and the output as they were: the
    arrays are [None], which has neither slices nor a length. The methods
    that load data ([set_xy_data], [xrd_from_2d]) and [slct_xaxis], which
    hands out the [None], are not among the calls of [method]. *)
Theorem methods_need_data
    {tools : xrd_tools} {kwargs : Type} {fitting : xrd_fitting kwargs} :
  forall label x xtype wavelength energy o out (c : method kwargs),
    new_xrd1d label x xtype None wavelength energy = Ok o ->
    c <> ResetBkgd ->
    run c (mk_world o out) = (mk_world o out, Raise TypeError).
Proof.
  intros label x xtype wavelength energy o out c Hnew Hc.
  rewrite new_xrd1d_without_arrays in Hnew. injection Hnew as <-.
  destruct c; try congruence; cbn [run];
    unfold find_peaks, fit_background, set_trim, slct_xaxis, plot, all_data,
           reset_range, sliced; py;
    outcomes; reflexivity.
Qed.

(** [fit_background()] right after [xrd1d(wavelength=1.0)]. *)
Lemma methods_need_data_witness :
  run (fitting := near_fitting) FitBackground
      (mk_world (set_wavelength (Some 1%float) blank) [])
  = (mk_world (set_wavelength (Some 1%float) blank) [], Raise TypeError).
Proof.
  refine (@methods_need_data plain_tools unit near_fitting None None None
            (Some 1%float) None _ [] FitBackground _ _).
  - reflexivity.
  - discriminate.
Defined.

(** ** Tags and single samples *)

Lemma startswith_app (pre s : string) :
  startswith (pre ++ s) pre = true.
Proof.
  unfold startswith. induction pre as [|c pre IH]; cbn.
  - now destruct s.
  - destruct (Ascii.ascii_dec c c); [exact IH|congruence].
Qed.

(** X5. The tag is matched by prefix: a string that goes on after ['q'],
    ['2th'] or ['d'] (the header marker ['q_A^-1'], but also ['degrees'])
    is converted exactly as the bare tag is. *)
Theorem calculate_xvalues_reads_the_prefix {tools : xrd_tools} :
  forall (a : axis) (rest : string) x wavelength out,
    calculate_xvalues x (tag a ++ rest) wavelength out
    = calculate_xvalues x (tag a) wavelength out.
Proof.
  intros a rest x wavelength out. unfold calculate_xvalues.
  destruct a; cbn [tag].
  - now rewrite startswith_app.
  - change (startswith ("2th" ++ rest) "q") with false.
    now rewrite startswith_app.
  - change (startswith ("d" ++ rest) "q") with false.
    change (startswith ("d" ++ rest) "2th") with false.
    now rewrite startswith_app.
Qed.

(** X6. A single sample, under each of the three tags: [squeeze] makes it
    zero-dimensional, so without a wavelength [len] raises TypeError and
    nothing is returned, and with a wavelength the three results are
    zero-dimensional too. *)
Theorem calculate_xvalues_single_sample {tools : xrd_tools} :
  forall (a : axis) (v : float) out,
    calculate_xvalues [v] (tag a) None out = (out, Raise TypeError) /\
    forall w, exists q t d,
        calculate_xvalues [v] (tag a) (Some w) out
        = (out, Ok (Some (Arr0 q), Some (Arr0 t), Some (Arr0 d))).
Proof.
  intros a v out. split.
  - destruct a; reflexivity.
  - intros w. destruct a; cbv -[d_from_q d_from_twth twth_from_d twth_from_q
                                q_from_d q_from_twth];
      do 3 eexists; reflexivity.
Qed.

(** ** Loading a block *)

(** Two rows of [n >= 2] samples are split into the first and the second. *)
Lemma two_rows_split (x y : list float) :
  length x = length y -> 2 <= length x ->
  np_array [PArr x; PArr y] = Ok ([x; y], 2, length x) /\
  split_xy [x; y] 2 (length x) = Ok (Vectors x y).
Proof.
  intros Hxy Hn. split.
  - unfold np_array. cbn. now rewrite <- Hxy, Nat.eqb_refl.
  - unfold split_xy.
    replace (length x <? 2) with false by (symmetry; apply Nat.ltb_ge; lia).
    reflexivity.
Qed.

Lemma rows_of_pairs (l : list (float * float)) :
  rows_of (map (fun p => PArr [fst p; snd p]) l)
  = Some (map (fun p => [fst p; snd p]) l).
Proof. induction l as [|p l IH]; cbn; [reflexivity|now rewrite IH]. Qed.

Lemma rectangular_pairs (l : list (float * float)) :
  rectangular 2 (map (fun p => [fst p; snd p]) l) = true.
Proof. induction l as [|p l IH]; cbn; [reflexivity|exact IH]. Qed.

Lemma column_pairs (x y : list float) :
  length x = length y ->
  column 0 (map (fun p => [fst p; snd p]) (combine x y)) = x /\
  column 1 (map (fun p => [fst p; snd p]) (combine x y)) = y.
Proof.
  revert y. induction x as [|a x IH]; intros [|b y] H; try discriminate.
  - split; reflexivity.
  - injection H as H. destruct (IH y H) as [Hx Hy].
    unfold column in *. cbn. now rewrite Hx, Hy.
Qed.

(** [n >= 3] rows of two samples are split into the two columns. *)
Lemma two_columns_split (x y : list float) :
  length x = length y -> 3 <= length x ->
  let rows := map (fun p => [fst p; snd p]) (combine x y) in
  np_array (map (fun p => PArr [fst p; snd p]) (combine x y))
  = Ok (rows, length x, 2) /\
  split_xy rows (length x) 2 = Ok (Vectors x y).
Proof.
  intros Hxy Hn. cbn zeta.
  assert (Hlen : length (combine x y) = length x)
    by (rewrite length_combine; lia).
  split.
  - unfold np_array. rewrite rows_of_pairs.
    destruct (combine x y) as [|p l] eqn:E; [cbn in Hlen; lia|].
    cbn [map length]. rewrite rectangular_pairs, length_map.
    cbn [length] in Hlen. now rewrite Hlen.
  - unfold split_xy.
    replace (2 <? length x) with true by (symmetry; apply Nat.ltb_lt; lia).
    cbn [Nat.odd Nat.even negb].
    destruct (column_pairs x y Hxy) as [-> ->]. reflexivity.
Qed.

(** [set_xy_data] sees its block through the two halves only. *)
Lemma set_xy_data_halves {tools : xrd_tools} items1 items2 m1 m2 h xtype :
  np_array items1 = Ok m1 -> np_array items2 = Ok m2 ->
  split_xy (fst (fst m1)) (snd (fst m1)) (snd m1) = Ok h ->
  split_xy (fst (fst m2)) (snd (fst m2)) (snd m2) = Ok h ->
  forall w, set_xy_data (Some items1) xtype w = set_xy_data (Some items2) xtype w.
Proof.
  destruct m1 as [[rows1 r1] c1], m2 as [[rows2 r2] c2]. cbn [fst snd].
  intros H1 H2 S1 S2 w.
  unfold set_xy_data, bind, lift. now rewrite H1, H2, S1, S2.
Qed.

(** X7. The two layouts give the same object: [n >= 3] rows of a pair
    [(x_k, y_k)] are loaded exactly as the two rows [x] and [y] are, for
    every tag and every state of the object. *)
Theorem set_xy_data_either_layout {tools : xrd_tools} :
  forall (x y : list float) xtype w,
    length x = length y -> 3 <= length x ->
    set_xy_data (Some (map (fun p => PArr [fst p; snd p]) (combine x y)))
                xtype w
    = set_xy_data (Some [PArr x; PArr y]) xtype w.
Proof.
  intros x y xtype w Hxy Hn.
  destruct (two_columns_split x y Hxy Hn) as [Hc Sc].
  destruct (two_rows_split x y Hxy) as [Hr Sr]; [lia|].
  exact (@set_xy_data_halves tools _ _ _ _ _ xtype Hc Hr Sc Sr w).
Qed.

(** Three samples, by rows and by columns. *)
Lemma set_xy_data_either_layout_witness :
  set_xy_data (tools := plain_tools)
    (Some [PArr [1; 0]%float; PArr [2; 5]%float; PArr [3; 10]%float])
    "2th" (mk_world blank [])
  = set_xy_data (tools := plain_tools)
      (Some [PArr [1; 2; 3]%float; PArr [0; 5; 10]%float])
      "2th" (mk_world blank []).
Proof.
  refine (@set_xy_data_either_layout plain_tools [1; 2; 3]%float
            [0; 5; 10]%float "2th" (mk_world blank []) _ _).
  - reflexivity.
  - cbn. lia.
Defined.

(** X8. A block that numpy refuses (rows of unequal length, a single
    sample, which cannot be split in two, an empty list) ends the call in
    ValueError or IndexError before anything is assigned: the object and
    the output are as before. *)
Theorem set_xy_data_refused_block_changes_nothing {tools : xrd_tools} :
  forall items xtype w w' e,
    set_xy_data (Some items) xtype w = (w', Raise e) ->
    e = ValueError \/ e = IndexError ->
    w' = w.
Proof.
  intros items xtype [[wl q0 t0 d0 y0 b0 p0 i0 j0] out] w' e.
  unfold set_xy_data. py.
  destruct (np_array items) as [[[rows r] c]|e0] eqn:Ha;
    [|intros H _; now inversion H].
  destruct (split_xy rows r c) as [[x y|]|e0] eqn:Hs;
    [| intros H [E|E]; inversion H; congruence
     | intros H _; now inversion H].
  destruct (split_xy_vectors _ Ha Hs) as [Hxy Hx1].
  unfold calculate_xvalues.
  rewrite (squeeze_vector x Hx1).
  destruct (startswith xtype "q");
    [|destruct (startswith xtype "2th");
      [|destruct (startswith xtype "d")]];
    destruct wl as [wl|]; py;
    intros H [E|E]; inversion H; congruence.
Qed.

(** A block of one sample per row. *)
Lemma set_xy_data_refused_block_changes_nothing_witness :
  fst (set_xy_data (tools := plain_tools)
         (Some [PArr [1%float]; PArr [7%float]]) "q" (mk_world sample []))
  = mk_world sample [].
Proof.
  refine (@set_xy_data_refused_block_changes_nothing plain_tools
            [PArr [1%float]; PArr [7%float]] "q" (mk_world sample []) _
            ValueError _ _).
  - reflexivity.
  - left. reflexivity.
Defined.

(** X9. With a tag that none of the three tests accepts, [set_xy_data] on
    two rows of [n >= 2] samples does not return: the conversion prints its
    message and hands back three [None]s, which are stored, the intensities
    are stored, and [len(self.q)] then raises TypeError. The object is left
    with new intensities, no axes, and its old range and background. *)
Theorem set_xy_data_unknown_tag {tools : xrd_tools} :
  forall (x y : list float) xtype w,
    length x = length y -> 2 <= length x ->
    recognised xtype = false ->
    set_xy_data (Some [PArr x; PArr y]) xtype w
    = (mk_world (set_I (Some (Arr1 y)) (set_axes None None None (self w)))
                (stdout w ++ ["The provided x-axis label (" ++ xtype
                              ++ ") not correct. Check data."]%string),
       Raise TypeError).
Proof.
  intros x y xtype [o out] Hxy Hn Hrec.
  destruct (two_rows_split x y Hxy Hn) as [Hr Sr].
  unfold set_xy_data, bind at 1, lift at 1. rewrite Hr.
  unfold bind at 1, lift at 1. rewrite Sr.
  unfold bind at 1, get at 1. unfold bind at 1, call at 1. cbn [self stdout].
  rewrite (@calculate_xvalues_unrecognised tools x xtype (self_wavelength o)
             out Hrec).
  rewrite (squeeze_vector y) by lia. reflexivity.
Qed.

(** The tag ['tth'] on [sample]. *)
Lemma set_xy_data_unknown_tag_witness :
  set_xy_data (tools := plain_tools) (Some [PArr five; PArr counts]) "tth"
              (mk_world sample [])
  = (mk_world (set_I (Some (Arr1 counts)) (set_axes None None None sample))
              ["The provided x-axis label (tth) not correct. Check data."]%string,
     Raise TypeError).
Proof.
  refine (@set_xy_data_unknown_tag plain_tools five counts "tth"
            (mk_world sample []) _ _ _).
  - reflexivity.
  - cbn. lia.
  - reflexivity.
Defined.

(** X10. [set_xy_data] that returns has replaced the background by zeros
    of the new length, whatever was fitted before, and has printed
    nothing; it has not touched the list of peaks, which still holds the
    positions found in the previous data, nor the wavelength. *)
Theorem set_xy_data_keeps_the_peaks {tools : xrd_tools} :
  forall items xtype w w',
    set_xy_data (Some items) xtype w = (w', Ok tt) ->
    self_pki (self w') = self_pki (self w) /\
    self_wavelength (self w') = self_wavelength (self w) /\
    (exists n, pattern n (self w') /\
               self_bkgd (self w') = Some (Arr1 (zeros n))) /\
    stdout w' = stdout w.
Proof.
  intros items xtype w w' H.
  pose proof (@set_xy_data_silent _ _ _ _ _ H) as Hout.
  apply set_xy_data_returns in H
    as (n & q & t & d & y & Hq & Ht & Hd & Hy & Hw).
  rewrite Hw. cbn.
  split; [reflexivity|split; [reflexivity|split; [|exact Hout]]].
  exists n. split; [now constructor|reflexivity].
Qed.

(** New data into an object that holds one peak and a fitted background,
    after one line of output. *)
Lemma set_xy_data_keeps_the_peaks_witness :
  let w := mk_world (set_pki [2%Z]
                       (set_bkgd (Some (Arr1 [1; 1; 1; 1; 1]%float)) sample))
                    ["Opening xrd data file: ok.xy"%string] in
  let w' := fst (set_xy_data (tools := plain_tools)
                   (Some [PArr [1; 2]%float; PArr [3; 4]%float]) "2th" w) in
  self_pki (self w') = [2%Z] /\
  self_wavelength (self w') = None /\
  (exists n, pattern n (self w') /\
             self_bkgd (self w') = Some (Arr1 (zeros n))) /\
  stdout w' = ["Opening xrd data file: ok.xy"%string].
Proof.
  cbv zeta.
  refine (@set_xy_data_keeps_the_peaks plain_tools
            [PArr [1; 2]%float; PArr [3; 4]%float] "2th"
            (mk_world (set_pki [2%Z]
                         (set_bkgd (Some (Arr1 [1; 1; 1; 1; 1]%float)) sample))
                      ["Opening xrd data file: ok.xy"%string])
            _ _).
  reflexivity.
Defined.

(** ** Peaks and the active window *)

Section PeakTableFacts.

Context {kwargs : Type} {fitting : xrd_fitting kwargs}.

(** The five columns of the active table have one length. *)
Lemma active_columns_length q t d y b i j bkgd n :
  length q = n -> length t = n -> length d = n -> length y = n ->
  let b' := repaired (slice y i j) b in
  let ys := intensities bkgd (slice y i j) b' in
  Forall (fun row => length row = length ys)
         [slice q i j; slice t i j; slice d i j; ys; b'] /\
  length ys = length (slice y i j).
Proof.
  intros Hq Ht Hd Hy. cbn zeta.
  set (b' := repaired (slice y i j) b).
  set (ys := intensities bkgd (slice y i j) b').
  assert (Hb' : length b' = length (slice y i j)) by apply repaired_length.
  assert (Hys : length ys = length (slice y i j))
    by (apply intensities_length; exact Hb').
  split; [|exact Hys].
  repeat constructor; rewrite Hys; try exact Hb'; try reflexivity;
    apply slice_length_eq; congruence.
Qed.

(** [find_peaks] up to its loop: the background is repaired, the kept peaks
    are stored, and the loop runs over them from zeros. *)
Lemma find_peaks_unfolded wl q t d y b p i j out bkgd threshold (kw : kwargs) n :
  length q = n -> length t = n -> length d = n -> length y = n ->
  let o := mk_xrd1d wl (Some (Arr1 q)) (Some (Arr1 t)) (Some (Arr1 d))
                    (Some (Arr1 y)) (Some (Arr1 b)) p i j in
  let b' := repaired (slice y i j) b in
  let ys := intensities bkgd (slice y i j) b' in
  let pk := kept_peaks ys threshold kw in
  find_peaks bkgd threshold kw (mk_world o out)
  = (mk_world (set_pki pk (set_bkgd (Some (Arr1 b')) o)) out,
     fill_columns [slice q i j; slice t i j; slice d i j; ys; b'] 0 pk
                  (repeat (repeat fzero (length pk)) 5)).
Proof.
  intros Hq Ht Hd Hy. cbn zeta.
  destruct (@active_columns_length q t d y b i j bkgd n Hq Ht Hd Hy)
    as [Hrows Hys].
  set (b' := repaired (slice y i j) b) in *.
  set (ys := intensities bkgd (slice y i j) b') in *.
  inversion Hrows as [|? ? Hqs Hr1]; subst.
  inversion Hr1 as [|? ? Hts Hr2]; subst.
  inversion Hr2 as [|? ? Hds Hr3]; subst.
  inversion Hr3 as [|? ? _ Hr4]; subst.
  inversion Hr4 as [|? ? Hbs _]; subst.
  unfold find_peaks. unfold bind at 1.
  rewrite all_data_columns. fold b'. fold ys.
  unfold np_table. cbn [vectors_of option_map rectangular forallb].
  rewrite Hts, Hds, Hbs, <- Hqs, !Nat.eqb_refl.
  cbn [andb]. unfold bind, lift, assign, get, ret.
  rewrite py_index_fourth. unfold zeros.
  destruct threshold as [th|];
    cbn [self stdout self_pki set_pki kept_peaks repeat];
    destruct (fill_columns _ _ _ _); reflexivity.
Qed.

End PeakTableFacts.

(** Sample [k] of the slice [l[a:b]] is sample [a + k] of [l]. *)
Lemma pick_slice (l : list float) (a b k : Z) :
  (0 <= a <= b)%Z -> (b <= Z.of_nat (length l))%Z -> (0 <= k < b - a)%Z ->
  valid_index (length (slice l (Some a) (Some b))) k /\
  pick (slice l (Some a) (Some b)) k = nth (Z.to_nat (a + k)) l fzero.
Proof.
  intros Hab Hb Hk.
  assert (Hsa : slice_start (length l) (Some a) = Z.to_nat a).
  { unfold slice_start, clip_bound.
    replace (a <? 0)%Z with false by (symmetry; apply Z.ltb_ge; lia).
    f_equal. lia. }
  assert (Hsb : slice_stop (length l) (Some b) = Z.to_nat b).
  { unfold slice_stop, clip_bound.
    replace (b <? 0)%Z with false by (symmetry; apply Z.ltb_ge; lia).
    f_equal. lia. }
  assert (Hlen : length (slice l (Some a) (Some b)) = Z.to_nat (b - a)).
  { rewrite slice_length, Hsa, Hsb. lia. }
  split.
  - unfold valid_index. rewrite Hlen. lia.
  - unfold pick.
    replace (k <? 0)%Z with false by (symmetry; apply Z.ltb_ge; lia).
    unfold slice. rewrite Hsa, Hsb, nth_firstn.
    replace (Z.to_nat k <? Z.to_nat b - Z.to_nat a) with true
      by (symmetry; apply Nat.ltb_lt; lia).
    rewrite nth_skipn. f_equal. lia.
Qed.

(** X11. The peaks are positions in the active window, not in the arrays.
    On a pattern trimmed to [imin = a], [imax = b] (with [0 <= a <= b <=
    length]), when every kept peak [k] lies in [0 .. b-a-1], [find_peaks]
    stores the peaks as the finder gave them, and the [q], [twth] and [d]
    rows of its table hold the samples [a + k] of the arrays: to read an
    array at a stored peak, [imin] has to be added. *)
Theorem find_peaks_counts_from_imin
    {kwargs : Type} {fitting : xrd_fitting kwargs} :
  forall wl q t d y b p (a e : Z) out bkgd threshold (kw : kwargs) n,
    length q = n -> length t = n -> length d = n -> length y = n ->
    (0 <= a <= e)%Z -> (e <= Z.of_nat n)%Z ->
    let o := mk_xrd1d wl (Some (Arr1 q)) (Some (Arr1 t)) (Some (Arr1 d))
                      (Some (Arr1 y)) (Some (Arr1 b)) p (Some a) (Some e) in
    let b' := repaired (slice y (Some a) (Some e)) b in
    let ys := intensities bkgd (slice y (Some a) (Some e)) b' in
    let pk := kept_peaks ys threshold kw in
    let at_imin_plus (l : list float) :=
      map (fun k => nth (Z.to_nat (a + k)) l fzero) pk in
    Forall (fun k => (0 <= k < e - a)%Z) pk ->
    find_peaks bkgd threshold kw (mk_world o out)
    = (mk_world (set_pki pk (set_bkgd (Some (Arr1 b')) o)) out,
       Ok [at_imin_plus q; at_imin_plus t; at_imin_plus d;
           map (pick ys) pk; map (pick b') pk]).
Proof.
  intros wl q t d y b p a e out bkgd threshold kw n Hq Ht Hd Hy Hae He.
  cbn zeta. intros Hpk.
  rewrite (@find_peaks_unfolded kwargs fitting wl q t d y b p (Some a) (Some e)
             out bkgd threshold kw n Hq Ht Hd Hy).
  cbn zeta.
  destruct (@active_columns_length q t d y b (Some a) (Some e) bkgd n
              Hq Ht Hd Hy) as [Hrows Hys].
  set (b' := repaired (slice y (Some a) (Some e)) b) in *.
  set (ys := intensities bkgd (slice y (Some a) (Some e)) b') in *.
  set (pk := kept_peaks ys threshold kw) in *.
  assert (Hvalid : Forall (valid_index (length ys)) pk).
  { rewrite Hys. eapply Forall_impl; [|exact Hpk].
    intros k Hk. cbv beta in Hk. apply pick_slice; lia. }
  pose proof (@fill_columns_spec (length ys) _ Hrows pk [] Hvalid) as Hfill.
  cbn [length map app repeat] in Hfill |- *. rewrite Hfill.
  do 2 f_equal.
  assert (Hrow : forall l, length l = n ->
            map (pick (slice l (Some a) (Some e))) pk
            = map (fun k => nth (Z.to_nat (a + k)) l fzero) pk).
  { intros l Hl. apply map_ext_Forall.
    eapply Forall_impl; [|exact Hpk].
    intros k Hk. cbv beta in Hk. apply pick_slice; lia. }
  now rewrite (Hrow q Hq), (Hrow t Ht), (Hrow d Hd).
Qed.

(** [trimmed] ([imin = 1]) and a finder that reports position [1] of the
    window: the table holds sample [2] of the arrays. *)
Lemma find_peaks_counts_from_imin_witness :
  find_peaks (fitting := {| xrd_background := fun _ y => y;
                            peakfinder := fun _ (_ : unit) => [1%Z];
                            peakfilter := fun _ p _ => p |})
             false None tt (mk_world trimmed [])
  = (mk_world (set_pki [1%Z] (set_bkgd (Some (Arr1 (zeros 2))) trimmed)) [],
     Ok [[0]; [3]; [0]; [10]; [0]]%float).
Proof.
  refine (@find_peaks_counts_from_imin unit _ None (zeros 5) five (zeros 5)
            counts (zeros 5) [] 1%Z 3%Z [] false None tt 5 _ _ _ _ _ _ _);
    try reflexivity; try (cbn; lia).
  repeat constructor; lia.
Defined.

Lemma py_index_outside (row : list float) (k : Z) :
  ~ valid_index (length row) k -> py_index row k = Raise IndexError.
Proof.
  unfold valid_index, py_index. intros Hk.
  destruct (Z.ltb_spec k 0) as [Hneg|Hpos].
  - replace (0 <=? k + Z.of_nat (length row))%Z with false
      by (symmetry; apply Z.leb_gt; lia).
    reflexivity.
  - replace (k <? Z.of_nat (length row))%Z with false
      by (symmetry; apply Z.ltb_ge; lia).
    now rewrite andb_false_r.
Qed.

Lemma valid_index_dec (m : nat) (k : Z) :
  valid_index m k \/ ~ valid_index m k.
Proof. unfold valid_index. lia. Qed.

(** The loop stops at the first position that the table does not have. *)
Lemma fill_columns_outside (m : nat) row (tbl : list (list float)) :
  Forall (fun r => length r = m) (row :: tbl) ->
  forall pk i data,
    Exists (fun k => ~ valid_index m k) pk ->
    fill_columns (row :: tbl) i pk data = Raise IndexError.
Proof.
  intros Hrows pk.
  induction pk as [|k pk IH]; intros i data Hex.
  - inversion Hex.
  - cbn [fill_columns].
    destruct (valid_index_dec m k) as [Hk|Hk].
    + rewrite (@table_column_pick m k (row :: tbl) Hrows Hk).
      apply IH. inversion Hex; [contradiction|assumption].
    + inversion Hrows as [|? ? Hrow _]; subst.
      cbn [table_column]. now rewrite (py_index_outside _ Hk).
Qed.

(** X12. When one of the kept peaks is not a position of the active table,
    [find_peaks] ends in IndexError, and not before it has stored the kept
    peaks in [pki] and repaired the background: the object is changed
    although the call failed. *)
Theorem find_peaks_position_outside
    {kwargs : Type} {fitting : xrd_fitting kwargs} :
  forall wl q t d y b p i j out bkgd threshold (kw : kwargs) n,
    length q = n -> length t = n -> length d = n -> length y = n ->
    let o := mk_xrd1d wl (Some (Arr1 q)) (Some (Arr1 t)) (Some (Arr1 d))
                      (Some (Arr1 y)) (Some (Arr1 b)) p i j in
    let b' := repaired (slice y i j) b in
    let ys := intensities bkgd (slice y i j) b' in
    let pk := kept_peaks ys threshold kw in
    Exists (fun k => ~ valid_index (length ys) k) pk ->
    find_peaks bkgd threshold kw (mk_world o out)
    = (mk_world (set_pki pk (set_bkgd (Some (Arr1 b')) o)) out,
       Raise IndexError).
Proof.
  intros wl q t d y b p i j out bkgd threshold kw n Hq Ht Hd Hy.
  cbn zeta. intros Hex.
  rewrite (@find_peaks_unfolded kwargs fitting wl q t d y b p i j
             out bkgd threshold kw n Hq Ht Hd Hy).
  cbn zeta.
  destruct (@active_columns_length q t d y b i j bkgd n Hq Ht Hd Hy)
    as [Hrows _].
  now rewrite (fill_columns_outside Hrows _ _ Hex).
Qed.

(** A finder that reports position [7] for the five samples of [sample]. *)
Lemma find_peaks_position_outside_witness :
  find_peaks (fitting := {| xrd_background := fun _ y => y;
                            peakfinder := fun _ (_ : unit) => [7%Z];
                            peakfilter := fun _ p _ => p |})
             false None tt (mk_world sample [])
  = (mk_world (set_pki [7%Z] sample) [], Raise IndexError).
Proof.
  refine (@find_peaks_position_outside unit _ None (zeros 5) five (zeros 5)
            counts (zeros 5) [] (Some 0%Z) (Some 5%Z) [] false None tt 5
            _ _ _ _ _);
    try reflexivity.
  apply Exists_cons_hd. unfold valid_index.
  match goal with |- context [Z.of_nat ?m] => change m with 5 end. lia.
Defined.

(** ** The fitted background *)

(** X13. When the estimator returns an empty curve for a range that has
    samples, [fit_background] stores the empty curve and then fails on
    [bkgd[-1]] with IndexError: the background held before is lost. *)
Theorem fit_background_empty_curve
    {kwargs : Type} {fitting : xrd_fitting kwargs} :
  forall w x y,
    getslice (self_q (self w)) (self_imin (self w)) (self_imax (self w))
    = Ok x ->
    getslice (self_I (self w)) (self_imin (self w)) (self_imax (self w))
    = Ok y ->
    xrd_background x y = [] -> y <> [] ->
    fit_background w
    = (mk_world (set_bkgd (Some (Arr1 [])) (self w)) (stdout w),
       Raise IndexError).
Proof.
  intros w x y Hx Hy Hb Hne.
  rewrite (@fit_background_cases kwargs fitting w x y Hx Hy). cbn zeta.
  rewrite Hb. destruct y; [congruence|reflexivity].
Qed.

(** An estimator that returns nothing, on [sample]. *)
Lemma fit_background_empty_curve_witness :
  fit_background (fitting := {| xrd_background := fun _ _ => [];
                                peakfinder := fun _ (_ : unit) => [];
                                peakfilter := fun _ p _ => p |})
                 (mk_world sample [])
  = (mk_world (set_bkgd (Some (Arr1 [])) sample) [], Raise IndexError).
Proof.
  refine (@fit_background_empty_curve unit _ (mk_world sample []) (zeros 5)
            counts _ _ _ _); try reflexivity.
  discriminate.
Defined.

(** X14. A fitted background survives only if it is as long as the active
    range. When what [fit_background] stores (the estimator's curve, with
    its last sample appended once if it was shorter) has another length,
    the next [all_data] replaces it by zeros without a word: the
    intensities it returns with [bkgd=True] have zeros subtracted, and the
    fit is gone from the object. *)
Theorem fit_background_lost_on_length_mismatch
    {kwargs : Type} {fitting : xrd_fitting kwargs} :
  forall wl q t d y b p i j out bkgd n,
    length q = n -> length t = n -> length d = n -> length y = n ->
    let o := mk_xrd1d wl (Some (Arr1 q)) (Some (Arr1 t)) (Some (Arr1 d))
                      (Some (Arr1 y)) (Some (Arr1 b)) p i j in
    let ys := slice y i j in
    let c := xrd_background (slice q i j) ys in
    let stored := if length c <? length ys then c ++ [last c fzero] else c in
    let z := zeros (length ys) in
    c <> [] -> length stored <> length ys ->
    (fit_background ;;; all_data false bkgd) (mk_world o out)
    = (mk_world (set_bkgd (Some (Arr1 z)) o) out,
       Ok [Some (Arr1 (slice q i j)); Some (Arr1 (slice t i j));
           Some (Arr1 (slice d i j)); Some (Arr1 (intensities bkgd ys z));
           Some (Arr1 z)]).
Proof.
  intros wl q t d y b p i j out bkgd n Hq Ht Hd Hy. cbn zeta.
  intros Hc Hlen.
  unfold bind.
  rewrite (@fit_background_cases kwargs fitting
             (mk_world (mk_xrd1d wl (Some (Arr1 q)) (Some (Arr1 t))
                                 (Some (Arr1 d)) (Some (Arr1 y))
                                 (Some (Arr1 b)) p i j) out)
             (slice q i j) (slice y i j) eq_refl eq_refl).
  cbn zeta. cbn [self stdout].
  assert (Hrep : forall s, length s <> length (slice y i j) ->
            repaired (slice y i j) s = zeros (length (slice y i j))).
  { intros s Hs. unfold repaired.
    replace (Nat.eqb (length (slice y i j)) (length s)) with false
      by (symmetry; apply Nat.eqb_neq; congruence).
    reflexivity. }
  destruct (length (xrd_background (slice q i j) (slice y i j))
            <? length (slice y i j)).
  - destruct (xrd_background (slice q i j) (slice y i j)) as [|v c] eqn:E;
      [congruence|].
    unfold set_bkgd at 1.
    cbn [self_wavelength self_q self_twth self_d self_I self_pki
         self_imin self_imax].
    rewrite all_data_columns. cbn zeta. now rewrite (Hrep _ Hlen).
  - unfold set_bkgd at 1.
    cbn [self_wavelength self_q self_twth self_d self_I self_pki
         self_imin self_imax].
    rewrite all_data_columns. cbn zeta. now rewrite (Hrep _ Hlen).
Qed.

(** The curve of [short_fitting] is two samples short of [sample]. *)
Lemma fit_background_lost_on_length_mismatch_witness :
  (fit_background (fitting := short_fitting) ;;; all_data false true)
    (mk_world sample [])
  = (mk_world sample [],
     Ok [Some (Arr1 (zeros 5)); Some (Arr1 five); Some (Arr1 (zeros 5));
         Some (Arr1 counts); Some (Arr1 (zeros 5))]).
Proof.
  refine (@fit_background_lost_on_length_mismatch unit short_fitting None
            (zeros 5) five (zeros 5) counts (zeros 5) [] (Some 0%Z)
            (Some 5%Z) [] true 5 _ _ _ _ _ _);
    try reflexivity; vm_compute; discriminate.
Defined.

(** ** The order of the samples *)

Lemma SFleb_key (x y : spec_float) :
  x <> S754_nan -> y <> S754_nan ->
  (SFleb x y = true <-> key_le (sf_key x) (sf_key y)).
Proof.
  intros Hx Hy. unfold SFleb, SFcompare.
  destruct x as [sx|sx| |sx mx ex], y as [sy|sy| |sy my ey];
    try congruence;
    try destruct sx; try destruct sy; cbn;
    try (split; [intros _; lia | reflexivity]);
    try (split; [discriminate | lia]).
  - destruct (Z.compare_spec ex ey); fold (Pos.compare mx my);
      try destruct (Pos.compare_spec mx my); cbn;
      (split; [try discriminate; intros _; lia | try reflexivity; lia]).
  - destruct (Z.compare_spec ex ey); fold (Pos.compare mx my);
      try destruct (Pos.compare_spec mx my); cbn;
      (split; [try discriminate; intros _; lia | try reflexivity; lia]).
Qed.

Lemma SFeqb_refl (s : spec_float) : s <> S754_nan -> SFeqb s s = true.
Proof.
  unfold SFeqb, SFcompare. destruct s as [sx|sx| |sx mx ex]; try congruence;
    intros _; try destruct sx; try reflexivity;
    rewrite Z.compare_refl; fold (Pos.compare mx mx);
    rewrite Pos.compare_refl; reflexivity.
Qed.

Lemma is_nan_false (a : float) :
  PrimFloat.is_nan a = false <-> Prim2SF a <> S754_nan.
Proof.
  unfold PrimFloat.is_nan. rewrite FloatAxioms.eqb_spec. split.
  - intros H E. rewrite E in H. discriminate.
  - intros H. now rewrite SFeqb_refl.
Qed.

Lemma leb_true_not_nan (a b : float) :
  PrimFloat.leb a b = true ->
  PrimFloat.is_nan a = false /\ PrimFloat.is_nan b = false.
Proof.
  rewrite leb_spec, !is_nan_false. unfold SFleb, SFcompare.
  destruct (Prim2SF a), (Prim2SF b); try discriminate; split; discriminate.
Qed.

Lemma leb_key (a b : float) :
  PrimFloat.is_nan a = false -> PrimFloat.is_nan b = false ->
  (PrimFloat.leb a b = true
   <-> key_le (sf_key (Prim2SF a)) (sf_key (Prim2SF b))).
Proof.
  rewrite !is_nan_false, leb_spec. apply SFleb_key.
Qed.

Lemma key_le_total a b : key_le a b \/ key_le b a.
Proof. destruct a as [[? ?] ?], b as [[? ?] ?]. cbn. lia. Qed.

Lemma key_le_trans a b c : key_le a b -> key_le b c -> key_le a c.
Proof. destruct a as [[? ?] ?], b as [[? ?] ?], c as [[? ?] ?]. cbn. lia. Qed.

Lemma key_le_refl a : key_le a a.
Proof. destruct a as [[? ?] ?]. cbn. lia. Qed.

Lemma leb_refl (a : float) :
  PrimFloat.is_nan a = false -> PrimFloat.leb a a = true.
Proof. intros H. apply (@leb_key a a H H), key_le_refl. Qed.

Lemma leb_trans (a b c : float) :
  PrimFloat.leb a b = true -> PrimFloat.leb b c = true ->
  PrimFloat.leb a c = true.
Proof.
  intros Hab Hbc.
  destruct (@leb_true_not_nan a b Hab) as [Ha Hb].
  destruct (@leb_true_not_nan b c Hbc) as [_ Hc].
  apply (@leb_key a c Ha Hc).
  eapply key_le_trans; [apply (@leb_key a b Ha Hb)|apply (@leb_key b c Hb Hc)];
    assumption.
Qed.

Lemma leb_total (a b : float) :
  PrimFloat.is_nan a = false -> PrimFloat.is_nan b = false ->
  PrimFloat.leb a b = false -> PrimFloat.leb b a = true.
Proof.
  intros Ha Hb Hab. apply (@leb_key b a Hb Ha).
  destruct (key_le_total (sf_key (Prim2SF a)) (sf_key (Prim2SF b)))
    as [H|H]; [|exact H].
  apply (@leb_key a b Ha Hb) in H. congruence.
Qed.

Lemma ltb_not_leb (a b : float) :
  PrimFloat.ltb a b = true -> PrimFloat.leb b a = false.
Proof.
  rewrite ltb_spec, leb_spec. unfold SFltb, SFleb, SFcompare.
  destruct (Prim2SF a) as [sx|sx| |sx mx ex],
           (Prim2SF b) as [sy|sy| |sy my ey];
    try destruct sx; try destruct sy; cbn; try discriminate;
    try reflexivity;
    rewrite (Z.compare_antisym ex ey); fold (Pos.compare mx my);
    fold (Pos.compare my mx); rewrite (Pos.compare_antisym mx my);
    destruct (ex ?= ey)%Z; cbn; try discriminate; try reflexivity;
    destruct (mx ?= my)%positive; cbn; try discriminate; reflexivity.
Qed.

Lemma no_nan_nth (l : list float) (k : nat) :
  no_nan l -> k < length l -> PrimFloat.is_nan (nth k l fzero) = false.
Proof.
  intros H Hk. unfold no_nan in H. rewrite Forall_forall in H.
  apply H, nth_In, Hk.
Qed.

Lemma argmin_from_least (l : list float) :
  forall pre mp mi,
    no_nan (pre ++ l) ->
    mi < length pre ->
    nth mi (pre ++ l) fzero = mp ->
    (forall k, k < length pre ->
               PrimFloat.leb mp (nth k (pre ++ l) fzero) = true) ->
    (forall k, k < mi ->
               PrimFloat.leb (nth k (pre ++ l) fzero) mp = false) ->
    least_at (pre ++ l) (argmin_from mp mi (length pre) l).
Proof.
  induction l as [|v l IH]; intros pre mp mi Hnan Hmi Hmp Hle Hlt.
  - cbn. rewrite app_nil_r in *.
    assert (E : (if PrimFloat.is_nan mp then mi else mi) = mi)
      by (destruct (PrimFloat.is_nan mp); reflexivity).
    rewrite E. subst mp. repeat split; auto.
  - assert (Hmpn : PrimFloat.is_nan mp = false).
    { subst mp. apply no_nan_nth; [exact Hnan|]. rewrite length_app. lia. }
    assert (Hv : nth (length pre) (pre ++ v :: l) fzero = v)
      by apply nth_middle.
    assert (Hvn : PrimFloat.is_nan v = false).
    { rewrite <- Hv. apply no_nan_nth; [exact Hnan|].
      rewrite length_app. cbn. lia. }
    cbn [argmin_from]. rewrite Hmpn.
    replace (S (length pre)) with (length (pre ++ [v]))
      by (rewrite length_app; cbn; lia).
    replace (pre ++ v :: l) with ((pre ++ [v]) ++ l) in *
      by (now rewrite <- app_assoc).
    destruct (PrimFloat.leb mp v) eqn:E; cbn [negb].
    + apply IH; auto.
      * rewrite length_app. cbn. lia.
      * intros k Hk. rewrite length_app in Hk. cbn in Hk.
        destruct (Nat.eq_dec k (length pre)) as [->|Hne].
        -- now rewrite Hv.
        -- apply Hle. lia.
    + assert (Hvm : PrimFloat.leb v mp = true)
        by (apply leb_total; assumption).
      apply IH; auto.
      * rewrite length_app. cbn. lia.
      * intros k Hk. rewrite length_app in Hk. cbn in Hk.
        destruct (Nat.eq_dec k (length pre)) as [->|Hne].
        -- rewrite Hv. now apply leb_refl.
        -- eapply leb_trans; [exact Hvm|]. apply Hle. lia.
      * intros k Hk.
        destruct (PrimFloat.leb (nth k ((pre ++ [v]) ++ l) fzero) v) eqn:F;
          [|reflexivity].
        assert (PrimFloat.leb mp v = true)
          by (eapply leb_trans; [|exact F]; apply Hle; lia).
        congruence.
Qed.

Lemma argmin_least (l : list float) (i : nat) :
  no_nan l -> argmin l = Ok i -> least_at l i.
Proof.
  destruct l as [|v l]; [discriminate|].
  intros Hnan H. injection H as <-.
  assert (Hvn : PrimFloat.is_nan v = false)
    by (now inversion Hnan).
  apply (argmin_from_least l [v] (mp := v) (mi := 0)); cbn; auto.
  - intros k Hk. replace k with 0 by lia. now apply leb_refl.
  - intros k Hk. lia.
Qed.

(** [np.min] of samples without NaN is one of them and is below all. *)
Lemma fold_fminimum_least (l : list float) :
  forall acc,
    PrimFloat.is_nan acc = false -> no_nan l ->
    In (fold_left fminimum l acc) (acc :: l) /\
    forall v, In v (acc :: l) ->
              PrimFloat.leb (fold_left fminimum l acc) v = true.
Proof.
  induction l as [|x l IH]; intros acc Hacc Hnan.
  - cbn. split; [now left|]. intros v [<-|[]]. now apply leb_refl.
  - inversion Hnan as [|? ? Hx Hl]; subst.
    cbn [fold_left].
    assert (Hm : fminimum acc x = acc /\ PrimFloat.leb acc x = true \/
                 fminimum acc x = x /\ PrimFloat.leb x acc = true).
    { unfold fminimum. rewrite Hacc, orb_false_r.
      destruct (PrimFloat.leb acc x) eqn:E; [now left|right].
      split; [reflexivity|now apply leb_total]. }
    destruct Hm as [[-> Hle]|[-> Hle]].
    + destruct (IH acc Hacc Hl) as [Hin Hall]. split.
      * destruct Hin as [<-|Hin]; [now left|right; now right].
      * intros v [<-|[<-|Hv]].
        -- apply Hall. now left.
        -- eapply leb_trans; [|exact Hle]. apply Hall. now left.
        -- apply Hall. now right.
    + destruct (IH x Hx Hl) as [Hin Hall]. split.
      * destruct Hin as [<-|Hin]; [right; now left|right; now right].
      * intros v [<-|[<-|Hv]].
        -- eapply leb_trans; [|exact Hle]. apply Hall. now left.
        -- apply Hall. now left.
        -- apply Hall. now right.
Qed.

Lemma fold_fmaximum_greatest (l : list float) :
  forall acc,
    PrimFloat.is_nan acc = false -> no_nan l ->
    In (fold_left fmaximum l acc) (acc :: l) /\
    forall v, In v (acc :: l) ->
              PrimFloat.leb v (fold_left fmaximum l acc) = true.
Proof.
  induction l as [|x l IH]; intros acc Hacc Hnan.
  - cbn. split; [now left|]. intros v [<-|[]]. now apply leb_refl.
  - inversion Hnan as [|? ? Hx Hl]; subst.
    cbn [fold_left].
    assert (Hm : fmaximum acc x = acc /\ PrimFloat.leb x acc = true \/
                 fmaximum acc x = x /\ PrimFloat.leb acc x = true).
    { unfold fmaximum. rewrite Hacc, orb_false_r.
      destruct (PrimFloat.leb x acc) eqn:E; [now left|right].
      split; [reflexivity|now apply leb_total]. }
    destruct Hm as [[-> Hle]|[-> Hle]].
    + destruct (IH acc Hacc Hl) as [Hin Hall]. split.
      * destruct Hin as [<-|Hin]; [now left|right; now right].
      * intros v [<-|[<-|Hv]].
        -- apply Hall. now left.
        -- eapply leb_trans; [exact Hle|]. apply Hall. now left.
        -- apply Hall. now right.
    + destruct (IH x Hx Hl) as [Hin Hall]. split.
      * destruct Hin as [<-|Hin]; [right; now left|right; now right].
      * intros v [<-|[<-|Hv]].
        -- eapply leb_trans; [exact Hle|]. apply Hall. now left.
        -- apply Hall. now left.
        -- apply Hall. now right.
Qed.

Lemma np_min_least (l : list float) (lo : float) :
  no_nan l -> np_min l = Ok lo ->
  In lo l /\ forall v, In v l -> PrimFloat.leb lo v = true.
Proof.
  destruct l as [|x l]; [discriminate|].
  intros Hnan H. injection H as <-.
  inversion Hnan; subst. now apply fold_fminimum_least.
Qed.

Lemma np_max_greatest (l : list float) (hi : float) :
  no_nan l -> np_max l = Ok hi ->
  In hi l /\ forall v, In v l -> PrimFloat.leb v hi = true.
Proof.
  destruct l as [|x l]; [discriminate|].
  intros Hnan H. injection H as <-.
  inversion Hnan; subst. now apply fold_fmaximum_greatest.
Qed.

(** [set_trim] on a selected axis with samples, written out: each index is
    the position that [argmin] gives when the test holds, and the value
    assigned first otherwise. *)
Lemma set_trim_computed xmin xmax xtype xi w l lo hi i j :
  slct_xaxis xtype xi w = (w, Ok (Some (Arr1 l))) ->
  np_min l = Ok lo -> np_max l = Ok hi ->
  argmin (abs_diff l xmin) = Ok i -> argmin (abs_diff l xmax) = Ok j ->
  set_trim xmin xmax xtype xi w
  = (mk_world
       (set_range
          (Some (if PrimFloat.ltb lo xmin then Z.of_nat i else 0%Z))
          (Some (if PrimFloat.ltb xmax hi then Z.of_nat j
                 else (Z.of_nat (length l) - 1)%Z))
          (self w))
       (stdout w), Ok tt).
Proof.
  intros Hsel Hlo Hhi Hi Hj.
  unfold set_trim. unfold bind at 1. rewrite Hsel.
  destruct w as [[wl q t d y b p i0 j0] out].
  py. rewrite Hlo, Hhi.
  destruct (PrimFloat.ltb lo xmin) eqn:Elo;
    destruct (PrimFloat.ltb xmax hi) eqn:Ehi; py;
    rewrite ?Hi, ?Hj; py; reflexivity.
Qed.

(** X15. What [set_trim] stores, for an axis with samples whose distances
    to the two bounds are not NaN. When [xmin] is above the least sample,
    [imin] is the position of a sample nearest to [xmin], the first of
    them: no sample is nearer, and every earlier one is farther; otherwise
    [imin] is [0]. When [xmax] is below the greatest sample, [imax] is the
    position of the first sample nearest to [xmax]; otherwise it is
    [len(x) - 1]. *)
Theorem set_trim_picks_nearest_samples :
  forall xmin xmax xtype xi w l lo hi,
    slct_xaxis xtype xi w = (w, Ok (Some (Arr1 l))) ->
    np_min l = Ok lo -> np_max l = Ok hi ->
    no_nan (abs_diff l xmin) -> no_nan (abs_diff l xmax) ->
    exists a b,
      set_trim xmin xmax xtype xi w
      = (mk_world (set_range (Some a) (Some b) (self w)) (stdout w), Ok tt) /\
      (if PrimFloat.ltb lo xmin
       then exists i, a = Z.of_nat i /\ nearest_at l xmin i
       else a = 0%Z) /\
      (if PrimFloat.ltb xmax hi
       then exists j, b = Z.of_nat j /\ nearest_at l xmax j
       else b = (Z.of_nat (length l) - 1)%Z).
Proof.
  intros xmin xmax xtype xi w l lo hi Hsel Hlo Hhi Hnmin Hnmax.
  assert (Hl : l <> []) by (intros ->; discriminate).
  destruct (nearest_bound xmin Hl) as (i & Hi & _).
  destruct (nearest_bound xmax Hl) as (j & Hj & _).
  do 2 eexists. split.
  - exact (@set_trim_computed xmin xmax xtype xi w l lo hi i j
             Hsel Hlo Hhi Hi Hj).
  - split.
    + destruct (PrimFloat.ltb lo xmin); [|reflexivity].
      exists i. split; [reflexivity|].
      now apply argmin_least.
    + destruct (PrimFloat.ltb xmax hi); [|reflexivity].
      exists j. split; [reflexivity|].
      now apply argmin_least.
Qed.

(** [set_trim(2, 4, '2th')] on [sample]. *)
Lemma set_trim_picks_nearest_samples_witness :
  exists a b,
    set_trim 2 4 "2th" None (mk_world sample [])
    = (mk_world (set_range (Some a) (Some b) sample) [], Ok tt) /\
    (if PrimFloat.ltb 1 2
     then exists i, a = Z.of_nat i /\ nearest_at five 2 i
     else a = 0%Z) /\
    (if PrimFloat.ltb 4 5
     then exists j, b = Z.of_nat j /\ nearest_at five 4 j
     else b = (Z.of_nat (length five) - 1)%Z).
Proof.
  refine (@set_trim_picks_nearest_samples 2%float 4%float "2th" None
            (mk_world sample []) five 1%float 5%float _ _ _ _ _);
    try reflexivity; repeat constructor.
Defined.

(** X16. Bounds that enclose every sample ([xmin <= x_k <= xmax] for all
    [k]) make [set_trim] store [imin = 0] and [imax = len(x) - 1]: the
    slice [imin:imax] that the other methods take then stops one sample
    before the end of the arrays. *)
Theorem set_trim_enclosing_bounds :
  forall xmin xmax xtype xi w l,
    slct_xaxis xtype xi w = (w, Ok (Some (Arr1 l))) ->
    l <> [] ->
    (forall v, In v l -> PrimFloat.leb xmin v = true) ->
    (forall v, In v l -> PrimFloat.leb v xmax = true) ->
    set_trim xmin xmax xtype xi w
    = (mk_world (set_range (Some 0%Z) (Some (Z.of_nat (length l) - 1)%Z)
                           (self w))
                (stdout w), Ok tt).
Proof.
  intros xmin xmax xtype xi w l Hsel Hl Hlow Hhigh.
  assert (Hnan : no_nan l).
  { apply Forall_forall. intros v Hv.
    exact (proj2 (@leb_true_not_nan xmin v (Hlow v Hv))). }
  destruct (np_min_total Hl) as [lo Hlo].
  destruct (np_max_total Hl) as [hi Hhi].
  destruct (nearest_bound xmin Hl) as (i & Hi & _).
  destruct (nearest_bound xmax Hl) as (j & Hj & _).
  rewrite (@set_trim_computed xmin xmax xtype xi w l lo hi i j
             Hsel Hlo Hhi Hi Hj).
  destruct (np_min_least Hnan Hlo) as [Hin _].
  destruct (np_max_greatest Hnan Hhi) as [Hin' _].
  assert (E1 : PrimFloat.ltb lo xmin = false).
  { destruct (PrimFloat.ltb lo xmin) eqn:E; [|reflexivity].
    apply ltb_not_leb in E. rewrite (Hlow lo Hin) in E. discriminate. }
  assert (E2 : PrimFloat.ltb xmax hi = false).
  { destruct (PrimFloat.ltb xmax hi) eqn:E; [|reflexivity].
    apply ltb_not_leb in E. rewrite (Hhigh hi Hin') in E. discriminate. }
  now rewrite E1, E2.
Qed.

(** The bounds [1] and [5] of the samples [1..5]. *)
Lemma set_trim_enclosing_bounds_witness :
  set_trim 1 5 "2th" None (mk_world sample [])
  = (mk_world (set_range (Some 0%Z) (Some 4%Z) sample) [], Ok tt).
Proof.
  refine (@set_trim_enclosing_bounds 1%float 5%float "2th" None
            (mk_world sample []) five _ _ _ _).
  - reflexivity.
  - discriminate.
  - intros v Hv. cbn in Hv.
    repeat (destruct Hv as [<-|Hv]; [reflexivity|]). destruct Hv.
  - intros v Hv. cbn in Hv.
    repeat (destruct Hv as [<-|Hv]; [reflexivity|]). destruct Hv.
Defined.

(** ** The active range *)

(** A slice between two positions of the sequence has [b - a] items, none
    when [b <= a]. *)
Lemma slice_length_between {A} (l : list A) (a b : Z) :
  (0 <= a <= Z.of_nat (length l))%Z -> (0 <= b <= Z.of_nat (length l))%Z ->
  length (slice l (Some a) (Some b)) = Z.to_nat (b - a).
Proof.
  intros Ha Hb. rewrite slice_length.
  unfold slice_start, slice_stop, clip_bound.
  replace (a <? 0)%Z with false by (symmetry; apply Z.ltb_ge; lia).
  replace (b <? 0)%Z with false by (symmetry; apply Z.ltb_ge; lia).
  lia.
Qed.

(** X17. On a pattern whose two indices [a], [b] lie between [0] and the
    array length, [all_data] returns five arrays of [b - a] samples each,
    and of no sample when [b <= a] (bounds given to [set_trim] in the
    wrong order): it never fails, and an empty window is not reported. *)
Theorem all_data_active_length :
  forall wl q t d y b p (i j : Z) out bkgd n,
    length q = n -> length t = n -> length d = n -> length y = n ->
    (0 <= i <= Z.of_nat n)%Z -> (0 <= j <= Z.of_nat n)%Z ->
    exists w1 cols,
      all_data false bkgd
        (mk_world (mk_xrd1d wl (Some (Arr1 q)) (Some (Arr1 t))
                            (Some (Arr1 d)) (Some (Arr1 y))
                            (Some (Arr1 b)) p (Some i) (Some j)) out)
      = (w1, Ok (map (fun c => Some (Arr1 c)) cols)) /\
      length cols = 5 /\
      Forall (fun c => length c = Z.to_nat (j - i)) cols.
Proof.
  intros wl q t d y b p i j out bkgd n Hq Ht Hd Hy Hi Hj.
  rewrite all_data_columns. cbn zeta.
  eexists. exists [slice q (Some i) (Some j); slice t (Some i) (Some j);
                   slice d (Some i) (Some j);
                   intensities bkgd (slice y (Some i) (Some j))
                     (repaired (slice y (Some i) (Some j)) b);
                   repaired (slice y (Some i) (Some j)) b].
  split; [reflexivity|]. split; [reflexivity|].
  assert (Hs : forall l : list float, length l = n ->
                 length (slice l (Some i) (Some j)) = Z.to_nat (j - i))
    by (intros l Hl; apply slice_length_between; rewrite Hl; assumption).
  repeat constructor.
  - now apply Hs.
  - now apply Hs.
  - now apply Hs.
  - rewrite intensities_length; [now apply Hs|apply repaired_length].
  - rewrite repaired_length. now apply Hs.
Qed.

(** The window [3, 1] on [sample]: nothing is active. *)
Lemma all_data_active_length_witness :
  exists w1 cols,
    all_data false false (mk_world (set_range (Some 3%Z) (Some 1%Z) sample) [])
    = (w1, Ok (map (fun c => Some (Arr1 c)) cols)) /\
    length cols = 5 /\
    Forall (fun c => length c = Z.to_nat (1 - 3)) cols.
Proof.
  refine (@all_data_active_length None (zeros 5) five (zeros 5) counts
            (zeros 5) [] 3%Z 1%Z [] false 5 _ _ _ _ _ _);
    try reflexivity; cbn; lia.
Defined.

(** Subtracting a background of another length, neither of them [1]. *)
Lemma np_sub_mismatch (ys b : list float) :
  length ys <> length b -> length ys <> 1 -> length b <> 1 ->
  np_sub ys (Some (Arr1 b)) = Raise ValueError.
Proof.
  intros Hne Hy Hb. unfold np_sub.
  replace (Nat.eqb (length ys) (length b)) with false
    by (symmetry; now apply Nat.eqb_neq).
  destruct ys as [|s [|s' ys]], b as [|v [|v' b]]; cbn in *;
    try reflexivity; congruence.
Qed.

(** X18. [reset_bkgd] sizes the zero background by the whole intensity
    array, not by the active range. On a trimmed pattern ([m] active
    samples out of [n], with [m], [n] different and neither equal to [1]),
    [plot(bkgd=True)] right after [reset_bkgd] fails with ValueError, for
    the two lengths cannot be subtracted; the object keeps the background
    of [n] zeros. *)
Theorem reset_bkgd_then_plot_on_trimmed :
  forall wl q t d y b p (i j : option Z) out n,
    length q = n -> length t = n -> length d = n -> length y = n ->
    length (slice y i j) <> n -> length (slice y i j) <> 1 -> n <> 1 ->
    let o := mk_xrd1d wl (Some (Arr1 q)) (Some (Arr1 t)) (Some (Arr1 d))
                      (Some (Arr1 y)) (Some (Arr1 b)) p i j in
    (reset_bkgd ;;; plot false true) (mk_world o out)
    = (mk_world (set_bkgd (Some (Arr1 (zeros n))) o) out, Raise ValueError).
Proof.
  intros wl q t d y b p i j out n Hq Ht Hd Hy Hm Hm1 Hn1. cbn zeta.
  unfold reset_bkgd, plot, reset_range, sliced. py.
  rewrite np_sub_mismatch; rewrite ?zeros_length; try congruence.
  now rewrite Hy.
Qed.

(** [trimmed]: two active samples out of five. *)
Lemma reset_bkgd_then_plot_on_trimmed_witness :
  (reset_bkgd ;;; plot false true) (mk_world trimmed [])
  = (mk_world trimmed [], Raise ValueError).
Proof.
  refine (@reset_bkgd_then_plot_on_trimmed None (zeros 5) five (zeros 5)
            counts (zeros 5) [] (Some 1%Z) (Some 3%Z) [] 5 _ _ _ _ _ _ _);
    try reflexivity; vm_compute; lia.
Defined.

(** ** [create_xrd] and [save_1D] *)

(** X19. [create_xrd] accepts [nwedge] and [steps] and hands neither to
    [XRD]: whatever the caller passes, the object has [nwedge = 1] and
    [steps = 5001], the defaults of [XRD.__init__] (and not the default
    [nwedge = 2] of [create_xrd] itself); an object with 1-D data only
    always prints [channels = 5001]. *)
Theorem create_xrd_drops_nwedge_and_steps :
  forall data2D xpixels ypixels data1D nwedge steps name,
    let x := create_xrd data2D xpixels ypixels data1D nwedge steps name in
    xrd_nwedge x = 1%Z /\ xrd_steps x = 5001%Z /\
    x = XRD_init data2D xpixels ypixels data1D None None name /\
    (forall d, data2D = None -> data1D = Some d ->
               XRD_repr x
               = ("<1DXRD " ++ arg name "xrd" ++ ": channels = 5001>")%string).
Proof.
  intros data2D xpixels ypixels data1D nwedge steps name. cbn zeta.
  split; [reflexivity|]. split; [reflexivity|]. split.
  - destruct xpixels, ypixels, name; reflexivity.
  - intros d -> ->. reflexivity.
Qed.

(** The search of [save_1D] returns the first counter whose name is free. *)
Lemma first_free_found (present : string -> bool) (name : nat -> string) :
  forall fuel counter c,
    first_free present name fuel counter = Some c ->
    counter <= c /\ present (name c) = false /\
    forall k, counter <= k < c -> present (name k) = true.
Proof.
  induction fuel as [|fuel IH]; intros counter c; cbn; [discriminate|].
  destruct (present (name counter)) eqn:E.
  - intros H. apply IH in H as (Hle & Hfree & Hbusy).
    split; [lia|]. split; [exact Hfree|].
    intros k Hk. destruct (Nat.eq_dec k counter) as [->|Hne];
      [exact E|apply Hbusy; lia].
  - intros H; injection H as <-. split; [lia|]. split; [exact E|].
    intros k Hk. lia.
Qed.

Lemma first_free_enough (present : string -> bool) (name : nat -> string) :
  forall fuel counter c,
    counter <= c -> c - counter < fuel ->
    (forall k, counter <= k < c -> present (name k) = true) ->
    present (name c) = false ->
    first_free present name fuel counter = Some c.
Proof.
  induction fuel as [|fuel IH]; intros counter c Hle Hfuel Hbusy Hfree;
    [lia|].
  cbn. destruct (Nat.eq_dec counter c) as [->|Hne].
  - now rewrite Hfree.
  - rewrite Hbusy by lia. apply IH; try lia; [|exact Hfree].
    intros k Hk. apply Hbusy. lia.
Qed.

(** X20. [save_1D] never names a file that exists: the name it returns is
    the one numbered [c >= 1] for the least [c] whose name
    [os.path.exists] does not find, and it is returned as soon as the loop
    is given [c] tests. Lower-numbered names all exist. *)
Theorem save_1D_first_free_name :
  forall present x f,
    xrd_filename x = Some f ->
    (forall fuel s,
        save_1D present x fuel = Some (Ok s) ->
        present s = false /\
        exists c, 1 <= c /\ s = xy_name f (xrd_title x) c /\
                  forall k, 1 <= k < c ->
                            present (xy_name f (xrd_title x) k) = true) /\
    (forall c fuel,
        1 <= c <= fuel ->
        (forall k, 1 <= k < c ->
                   present (xy_name f (xrd_title x) k) = true) ->
        present (xy_name f (xrd_title x) c) = false ->
        save_1D present x fuel = Some (Ok (xy_name f (xrd_title x) c))).
Proof.
  intros present x f Hf. unfold save_1D. rewrite Hf. split.
  - intros fuel s.
    destruct (first_free present (xy_name f (xrd_title x)) fuel 1)
      as [c|] eqn:E; [|discriminate].
    intros H; injection H as <-.
    apply first_free_found in E as (Hle & Hfree & Hbusy).
    split; [exact Hfree|]. exists c. auto.
  - intros c fuel Hc Hbusy Hfree.
    rewrite (@first_free_enough present (xy_name f (xrd_title x)) fuel 1 c);
      auto; lia.
Qed.

(** Two files of the series exist already. *)
Lemma save_1D_first_free_name_witness :
  let x := mk_XRD "xrd" 2048 2048 None None 1 5001
                  (Some "data/scan.tif"%string) (Some "run"%string) in
  let present s := (String.eqb s "data/scan.tif-run-001.xy"
                    || String.eqb s "data/scan.tif-run-002.xy")%bool in
  save_1D present x 5 = Some (Ok "data/scan.tif-run-003.xy"%string).
Proof.
  cbv zeta.
  refine (proj2 (@save_1D_first_free_name _
                   (mk_XRD "xrd" 2048 2048 None None 1 5001
                           (Some "data/scan.tif"%string) (Some "run"%string))
                   "data/scan.tif" eq_refl) 3 5 _ _ _).
  - lia.
  - intros k Hk. assert (k = 1 \/ k = 2) as [-> | ->] by lia; reflexivity.
  - reflexivity.
Defined.

(** A name without a slash is not cut, and its head is empty. *)
Lemma cut_without_slash (f : string) :
  ~ In "/"%char (list_ascii_of_string f) ->
  cut_at_last_slash f = (EmptyString, f).
Proof.
  induction f as [|c f IH]; cbn; [reflexivity|].
  intros H. rewrite IH by tauto.
  unfold is_slash. destruct (Ascii.eqb_spec c "/"); [|reflexivity].
  subst. tauto.
Qed.

(** X21. For a file name with no directory part, [os.path.split] gives an
    empty head, and the format ['%s/%s-...'] then starts with the slash:
    [save_1D] names a file in the root directory, not beside the data. *)
Theorem save_1D_name_without_directory :
  forall f title counter,
    ~ In "/"%char (list_ascii_of_string f) ->
    xy_name f title counter
    = ("/" ++ f ++ "-" ++ fmt_s title ++ "-" ++ fmt_03d counter
       ++ ".xy")%string.
Proof.
  intros f title counter H. unfold xy_name, path_split.
  now rewrite (cut_without_slash f H).
Qed.

(** [scan.tif] in the working directory. *)
Lemma save_1D_name_without_directory_witness :
  xy_name "scan.tif" (Some "run"%string) 1 = "/scan.tif-run-001.xy"%string.
Proof.
  refine (@save_1D_name_without_directory "scan.tif" (Some "run"%string) 1 _).
  cbn. intros H.
  repeat (destruct H as [H|H]; [discriminate H|]). exact H.
Defined.

(** ** Construction from a file *)

Section FromFileFacts.

Context {tools : xrd_tools} {io : xrd_io}.

(** A line without an axis marker leaves [xtype] as it was, and a line
    without [Wavelength] leaves the wavelength as it was, whether the line
    is read through or raises. *)
Lemma header_line_keeps_xtype line h :
  contains "q_" (remove_commas line) = false ->
  contains "2th_" (remove_commas line) = false ->
  h_xtype (fst (header_line line h)) = h_xtype h.
Proof.
  intros Hq Ht. unfold header_line. rewrite Hq, Ht. cbn [orb].
  unfold float_token, token, to_float. destruct h as [wl xt]. py.
  outcomes; reflexivity.
Qed.

Lemma header_line_keeps_wavelength line h :
  contains "Wavelength" (remove_commas line) = false ->
  h_wavelength (fst (header_line line h)) = h_wavelength h.
Proof.
  intros Hw. unfold header_line. rewrite Hw.
  unfold float_token, token, to_float. destruct h as [wl xt]. py.
  outcomes; reflexivity.
Qed.

Lemma header_lines_keep_xtype head :
  forall h,
    (forall line, In line head ->
                  contains "q_" (remove_commas line) = false /\
                  contains "2th_" (remove_commas line) = false) ->
    h_xtype (fst (header_lines head h)) = h_xtype h.
Proof.
  induction head as [|line head IH]; intros h Hno; [reflexivity|].
  cbn [header_lines]. unfold bind.
  destruct (Hno line (or_introl eq_refl)) as [Hq Ht].
  pose proof (header_line_keeps_xtype line h Hq Ht) as Hk.
  destruct (header_line line h) as [h1 [u|e]]; cbn [fst] in *.
  - rewrite IH; [exact Hk|]. intros l Hl. apply Hno. now right.
  - exact Hk.
Qed.

Lemma header_lines_keep_wavelength head :
  forall h,
    (forall line, In line head ->
                  contains "Wavelength" (remove_commas line) = false) ->
    h_wavelength (fst (header_lines head h)) = h_wavelength h.
Proof.
  induction head as [|line head IH]; intros h Hno; [reflexivity|].
  cbn [header_lines]. unfold bind.
  pose proof (header_line_keeps_wavelength line h
                (Hno line (or_introl eq_refl))) as Hk.
  destruct (header_line line h) as [h1 [u|e]]; cbn [fst] in *.
  - rewrite IH; [exact Hk|]. intros l Hl. apply Hno. now right.
  - exact Hk.
Qed.

End FromFileFacts.

(** X22. When the reader fails, the constructor does not: it prints
    [incorrect xy file format:] with the last component of the path and
    returns an object none of whose data attributes was assigned. *)
Theorem new_xrd1d_from_unreadable_file {tools : xrd_tools} {io : xrd_io} :
  forall filename,
    read1DXRDFile filename = None ->
    new_xrd1d_from_file filename
    = (["incorrect xy file format: " ++ basename filename]%string, Ok None).
Proof.
  intros filename H. unfold new_xrd1d_from_file, xrd_from_file.
  rewrite H. reflexivity.
Qed.

Lemma new_xrd1d_from_unreadable_file_witness :
  @read1DXRDFile two_files "d/none.xy" = None /\
  @new_xrd1d_from_file plain_tools two_files "d/none.xy"
  = (["incorrect xy file format: none.xy"]%string, Ok None).
Proof.
  split; [reflexivity|].
  exact (@new_xrd1d_from_unreadable_file plain_tools two_files
           "d/none.xy" eq_refl).
Defined.

(** X23. An object that the constructor returns with data loaded from a
    file holds a pattern and a wavelength, both from the file, no peak,
    and the range [imin = imax = None]: the range [0, length] that
    [set_xy_data] stored has been overwritten by the defaults that
    [__init__] assigns afterwards. *)
Theorem new_xrd1d_from_file_loaded {tools : xrd_tools} {io : xrd_io} :
  forall filename out o,
    new_xrd1d_from_file filename = (out, Ok (Some o)) ->
    (exists n, pattern n o /\ self_bkgd o = Some (Arr1 (zeros n))) /\
    (exists wl, self_wavelength o = Some wl) /\
    self_pki o = [] /\
    self_imin o = None /\ self_imax o = None.
Proof.
  intros filename out o.
  unfold new_xrd1d_from_file, xrd_from_file.
  destruct (read1DXRDFile filename) as [[head dat]|]; [|discriminate].
  unfold bind, call, print, ret, raise, assign. cbn [stdout self].
  destruct (header_lines head (mk_header None None)) as [h [u'|e]];
    [|discriminate].
  unfold load_block.
  destruct (h_xtype h) as [xt|]; [|discriminate].
  destruct (h_wavelength h) as [wl|].
  - unfold bind, assign. cbn [stdout self].
    match goal with
    | |- context [set_xy_data ?a ?b ?c] =>
        destruct (set_xy_data a b c) as [w1 [u1|e]] eqn:E; [|discriminate]
    end.
    destruct u1.
    apply set_xy_data_returns in E
      as (n & q & t & d & y & Hq & Ht & Hd & Hy & E).
    cbn in E. rewrite E. cbn.
    intros H; injection H as <- <-. cbn.
    repeat split; eauto.
    exists n. split; [now constructor|reflexivity].
  - unfold bind, lift, raise.
    destruct (np_array dat) as [[[rows r] c]|e];
      [|discriminate].
    destruct (split_xy rows r c) as [hv|e]; discriminate.
Qed.

Lemma new_xrd1d_from_file_loaded_witness :
  exists o,
    @new_xrd1d_from_file plain_tools two_files "d/ok.xy"
    = (["Opening xrd data file: ok.xy"]%string, Ok (Some o)) /\
    self_imin o = None /\ self_imax o = None.
Proof.
  pose (r := @new_xrd1d_from_file plain_tools two_files "d/ok.xy").
  exists (match snd r with Ok (Some o) => o | _ => blank end).
  assert (E : r = (["Opening xrd data file: ok.xy"]%string,
                   Ok (Some (match snd r with
                             | Ok (Some o) => o
                             | _ => blank
                             end))))
    by (vm_compute; reflexivity).
  split; [exact E|].
  exact (proj2 (proj2 (proj2
           (@new_xrd1d_from_file_loaded plain_tools two_files _ _ _ E)))).
Defined.

(** X24. A header in which no line holds an axis marker ([q_] or [2th_])
    or in which no line holds [Wavelength] never gives an object: the
    constructor raises. When the marker is what is missing and the header
    lines themselves raise nothing, the exception is NameError on the
    unbound local name [xtype], raised before the data block is looked
    at. *)
Theorem new_xrd1d_from_file_needs_marker_and_wavelength
    {tools : xrd_tools} {io : xrd_io} :
  forall filename head dat,
    read1DXRDFile filename = Some (head, dat) ->
    ((forall line, In line head ->
                   contains "q_" (remove_commas line) = false /\
                   contains "2th_" (remove_commas line) = false) \/
     (forall line, In line head ->
                   contains "Wavelength" (remove_commas line) = false)) ->
    (exists e, snd (new_xrd1d_from_file filename) = Raise e) /\
    ((forall line, In line head ->
                   contains "q_" (remove_commas line) = false /\
                   contains "2th_" (remove_commas line) = false) ->
     snd (header_lines head (mk_header None None)) = Ok tt ->
     new_xrd1d_from_file filename
     = (["Opening xrd data file: " ++ basename filename]%string,
        Raise (NameError "xtype"))).
Proof.
  intros filename head dat Hread Hno. split.
  - unfold new_xrd1d_from_file, xrd_from_file. rewrite Hread.
    unfold bind, call, print, ret, raise, assign. cbn [stdout self].
    assert (Hh : h_xtype (fst (header_lines head (mk_header None None)))
                 = None \/
                 h_wavelength (fst (header_lines head (mk_header None None)))
                 = None).
    { destruct Hno as [Hno|Hno].
      - left. now rewrite header_lines_keep_xtype.
      - right. now rewrite header_lines_keep_wavelength. }
    destruct (header_lines head (mk_header None None)) as [h [u'|e]];
      [|cbn; eauto].
    cbn [fst] in Hh. unfold load_block.
    destruct (h_xtype h) as [xt|]; [|cbn; eauto].
    destruct Hh as [Hh|Hh]; [discriminate|]. rewrite Hh.
    unfold bind, lift, raise.
    destruct (np_array dat) as [[[rows r] c]|e];
      [|cbn; eauto].
    destruct (split_xy rows r c) as [hv|e]; cbn; eauto.
  - intros Hm Hok. unfold new_xrd1d_from_file, xrd_from_file.
    rewrite Hread.
    unfold bind, call, print, ret, raise, assign. cbn [stdout self].
    pose proof (header_lines_keep_xtype head (mk_header None None) Hm)
      as Hx.
    destruct (header_lines head (mk_header None None)) as [h [u'|e]];
      [|discriminate].
    cbn in Hx. unfold load_block. rewrite Hx. reflexivity.
Qed.

Lemma new_xrd1d_from_file_needs_marker_and_wavelength_witness :
  @new_xrd1d_from_file plain_tools two_files "d/bare.xy"
  = (["Opening xrd data file: bare.xy"]%string, Raise (NameError "xtype")).
Proof.
  assert (Hm : forall line, In line ["# Wavelength: 1e-10"%string] ->
                 contains "q_" (remove_commas line) = false /\
                 contains "2th_" (remove_commas line) = false).
  { intros line [<-|[]]. split; reflexivity. }
  exact (proj2 (@new_xrd1d_from_file_needs_marker_and_wavelength
                  plain_tools two_files "d/bare.xy" _ _ eq_refl
                  (or_introl Hm))
               Hm eq_refl).
Defined.
